(** * Bitrate controller: receiver-report aggregation, change detection and
      observer notification.

    Shallow embedding of
    [webrtc/modules/bitrate_controller/bitrate_controller_impl.cc].

    - Fixed-width C++ integers are integers of [Z] with the wrap-around
      written out ([u8], [u32], [s32], [s64]); [int] division is [Z.quot]
      (truncation toward zero).
    - [std::map<uint32_t, uint32_t>] is a [gmap Z Z].
    - The critical section only serialises the entry points; every entry point
      is modelled as one atomic transition of the controller state.
    - The observer is modelled by the list of [OnNetworkChanged] calls an entry
      point performs, in order. *)

From Stdlib Require Import ZArith Lia List.
From stdpp Require Import gmap sorting.
Import ListNotations.
Local Open Scope Z_scope.

(** ** Fixed-width integers *)

Definition u8 (x : Z) : Z := x mod 2 ^ 8.
Definition u32 (x : Z) : Z := x mod 2 ^ 32.
(** Two's complement reading of the low 32 (64) bits. *)
Definition s32 (x : Z) : Z := (x + 2 ^ 31) mod 2 ^ 32 - 2 ^ 31.
Definition s64 (x : Z) : Z := (x + 2 ^ 63) mod 2 ^ 64 - 2 ^ 63.

Definition is_u8 (x : Z) : Prop := 0 <= x < 2 ^ 8.
Definition is_u32 (x : Z) : Prop := 0 <= x < 2 ^ 32.
Definition is_s32 (x : Z) : Prop := - 2 ^ 31 <= x < 2 ^ 31.

(** ** Report blocks

    The fields of [RTCPReportBlock] (declared in [rtp_rtcp_defines.h]) that the
    aggregation loop reads. *)

Record RTCPReportBlock : Type := {
  sourceSSRC : Z;          (* uint32_t *)
  fractionLost : Z;        (* uint8_t *)
  extendedHighSeqNum : Z   (* uint32_t *)
}.

Definition block_ok (b : RTCPReportBlock) : Prop :=
  is_u32 (sourceSSRC b) /\ is_u8 (fractionLost b) /\ is_u32 (extendedHighSeqNum b).

(** ** RtcpBandwidthObserverImpl::OnReceivedRtcpReceiverReport, lines 41-72 *)

(** The locals of the loop together with the member map. *)
Record LoopState : Type := {
  ssrc_to_last_received_extended_high_seq_num_ : gmap Z Z;
  fraction_lost_aggregate : Z;   (* int *)
  total_number_of_packets : Z    (* int *)
}.

(** Lines 51-54: [int number_of_packets], an unsigned 32-bit difference
    converted to [int]. *)
Definition number_of_packets (m : gmap Z Z) (b : RTCPReportBlock) : Z :=
  match m !! sourceSSRC b with
  | Some last => s32 (u32 (extendedHighSeqNum b - last))
  | None => 0
  end.

(** Lines 48-61: one iteration. *)
Definition loop_body (st : LoopState) (b : RTCPReportBlock) : LoopState :=
  let m := ssrc_to_last_received_extended_high_seq_num_ st in
  let n := number_of_packets m b in
  {| ssrc_to_last_received_extended_high_seq_num_ :=
       <[sourceSSRC b := extendedHighSeqNum b]> m;
     fraction_lost_aggregate :=
       s32 (fraction_lost_aggregate st + s32 (n * fractionLost b));
     total_number_of_packets := s32 (total_number_of_packets st + n) |}.

Definition loop_init (m : gmap Z Z) : LoopState :=
  {| ssrc_to_last_received_extended_high_seq_num_ := m;
     fraction_lost_aggregate := 0;
     total_number_of_packets := 0 |}.

Definition run_loop (m : gmap Z Z) (report_blocks : list RTCPReportBlock)
  : LoopState :=
  fold_left loop_body report_blocks (loop_init m).

(** Lines 63-67. *)
Definition weighted_average (agg total : Z) : Z :=
  if total =? 0 then 0
  else s32 (Z.quot (s32 (agg + Z.quot total 2)) total).

(** What the aggregator hands to its owner: the arguments
    [(fraction_loss, number_of_packets)] of
    [owner_->OnReceivedRtcpReceiverReport]; [rtt] and [now_ms] are passed
    through untouched.  [fraction_loss] is a [uint8_t] parameter, so the [int]
    aggregate is converted on the call. *)
Definition aggregate (m : gmap Z Z) (report_blocks : list RTCPReportBlock)
  : gmap Z Z * option (Z * Z) :=
  match report_blocks with
  | [] => (m, None)                                        (* lines 38-39 *)
  | _ =>
      let st := run_loop m report_blocks in
      let m' := ssrc_to_last_received_extended_high_seq_num_ st in
      let total := total_number_of_packets st in
      let avg := weighted_average (fraction_lost_aggregate st) total in
      if avg >? 255 then (m', None)                        (* lines 68-69 *)
      else (m', Some (u8 avg, total))                      (* lines 71-72 *)
  end.

Definition blk (ssrc lost seq : Z) : RTCPReportBlock :=
  {| sourceSSRC := ssrc; fractionLost := lost; extendedHighSeqNum := seq |}.

(** ** Collaborators declared outside this file

    [bandwidth_estimation_] and [remb_suppressor_] are members whose classes
    are defined in other translation units.  The controller is written
    against their member functions only, so they are interfaces here; the
    signatures are the ones the calls in [bitrate_controller_impl.cc] fix.
    [CurrentEstimate] fills a [uint32_t], a [uint8_t] and an [int64_t]. *)

Module Bwe.
Class BandwidthEstimation (E : Type) : Type := {
  bwe_new : E;                                   (* bandwidth_estimation_() *)
  SetSendBitrate : Z -> E -> E;
  SetMinMaxBitrate : Z -> Z -> E -> E;
  UpdateReceiverEstimate : Z -> E -> E;
  UpdateReceiverBlock : Z -> Z -> Z -> Z -> E -> E;
  UpdateEstimate : Z -> E -> E;
  CurrentEstimate : E -> Z * Z * Z;              (* const *)
  GetMinBitrate : E -> Z                         (* const *)
}.
End Bwe.
Export Bwe.

(** The suppressor is constructed from the clock, so each of its member
    functions may read it: the reading is their first argument. *)
Module Remb.
Class RembSuppressor (R : Type) : Type := {
  remb_new : R;                                  (* new RembSuppressor(clock) *)
  SuppresNewRemb : Z -> Z -> R -> bool * R;
  SetBitrateSent : Z -> Z -> R -> R;
  SetEnabled : Z -> bool -> R -> R
}.
End Remb.
Export Remb.

(** [webrtc::VideoCodecMode]; the source compares against [kScreensharing]. *)
Inductive VideoCodecMode : Type := kRealtimeVideo | kScreensharing.

Definition is_screensharing (mode : VideoCodecMode) : bool :=
  match mode with kScreensharing => true | kRealtimeVideo => false end.

(** One call [observer_->OnNetworkChanged(bitrate, fraction_loss, rtt)]. *)
Record OnNetworkChanged : Type := {
  call_bitrate : Z;
  call_fraction_loss : Z;
  call_rtt : Z
}.

(** ** BitrateControllerImpl *)

Module BitrateControllerImpl.
Section WithCollaborators.
Context {E R : Type} `{!BandwidthEstimation E} `{!RembSuppressor R}.

(** The data members that the member functions of this file read or write
    (the class is declared in [bitrate_controller_impl.h]); the integer
    widths are those of the values assigned to each member. *)
Record t : Type := {
  last_bitrate_update_ms_ : Z;        (* int64_t *)
  bandwidth_estimation_ : E;
  reserved_bitrate_bps_ : Z;          (* uint32_t *)
  last_bitrate_bps_ : Z;              (* uint32_t *)
  last_fraction_loss_ : Z;            (* uint8_t *)
  last_rtt_ms_ : Z;                   (* int64_t *)
  last_reserved_bitrate_bps_ : Z;     (* uint32_t *)
  remb_suppressor_ : R
}.

(** Lines 86-99; [now] is the clock reading taken by the initialiser. *)
Definition create (now : Z) : t :=
  {| last_bitrate_update_ms_ := now;
     bandwidth_estimation_ := bwe_new;
     reserved_bitrate_bps_ := 0;
     last_bitrate_bps_ := 0;
     last_fraction_loss_ := 0;
     last_rtt_ms_ := 0;
     last_reserved_bitrate_bps_ := 0;
     remb_suppressor_ := remb_new |}.

Definition with_engine (f : E -> E) (c : t) : t :=
  {| last_bitrate_update_ms_ := last_bitrate_update_ms_ c;
     bandwidth_estimation_ := f (bandwidth_estimation_ c);
     reserved_bitrate_bps_ := reserved_bitrate_bps_ c;
     last_bitrate_bps_ := last_bitrate_bps_ c;
     last_fraction_loss_ := last_fraction_loss_ c;
     last_rtt_ms_ := last_rtt_ms_ c;
     last_reserved_bitrate_bps_ := last_reserved_bitrate_bps_ c;
     remb_suppressor_ := remb_suppressor_ c |}.

Definition with_suppressor (r : R) (c : t) : t :=
  {| last_bitrate_update_ms_ := last_bitrate_update_ms_ c;
     bandwidth_estimation_ := bandwidth_estimation_ c;
     reserved_bitrate_bps_ := reserved_bitrate_bps_ c;
     last_bitrate_bps_ := last_bitrate_bps_ c;
     last_fraction_loss_ := last_fraction_loss_ c;
     last_rtt_ms_ := last_rtt_ms_ c;
     last_reserved_bitrate_bps_ := last_reserved_bitrate_bps_ c;
     remb_suppressor_ := r |}.

Definition with_reserved (reserved : Z) (c : t) : t :=
  {| last_bitrate_update_ms_ := last_bitrate_update_ms_ c;
     bandwidth_estimation_ := bandwidth_estimation_ c;
     reserved_bitrate_bps_ := reserved;
     last_bitrate_bps_ := last_bitrate_bps_ c;
     last_fraction_loss_ := last_fraction_loss_ c;
     last_rtt_ms_ := last_rtt_ms_ c;
     last_reserved_bitrate_bps_ := last_reserved_bitrate_bps_ c;
     remb_suppressor_ := remb_suppressor_ c |}.

Definition with_last_update (now : Z) (c : t) : t :=
  {| last_bitrate_update_ms_ := now;
     bandwidth_estimation_ := bandwidth_estimation_ c;
     reserved_bitrate_bps_ := reserved_bitrate_bps_ c;
     last_bitrate_bps_ := last_bitrate_bps_ c;
     last_fraction_loss_ := last_fraction_loss_ c;
     last_rtt_ms_ := last_rtt_ms_ c;
     last_reserved_bitrate_bps_ := last_reserved_bitrate_bps_ c;
     remb_suppressor_ := remb_suppressor_ c |}.

(** Lines 187-190. *)
Definition with_last_notified (bitrate fraction_loss rtt : Z) (c : t) : t :=
  {| last_bitrate_update_ms_ := last_bitrate_update_ms_ c;
     bandwidth_estimation_ := bandwidth_estimation_ c;
     reserved_bitrate_bps_ := reserved_bitrate_bps_ c;
     last_bitrate_bps_ := bitrate;
     last_fraction_loss_ := fraction_loss;
     last_rtt_ms_ := rtt;
     last_reserved_bitrate_bps_ := reserved_bitrate_bps_ c;
     remb_suppressor_ := remb_suppressor_ c |}.

(** *** Entry points as state transformers that log observer calls *)

Definition M (A : Type) : Type := t -> A * t * list OnNetworkChanged.

Definition ret {A} (a : A) : M A := fun c => (a, c, []).
Definition bind {A B} (m : M A) (k : A -> M B) : M B :=
  fun c =>
    let '(a, c1, o1) := m c in
    let '(b, c2, o2) := k a c1 in
    (b, c2, o1 ++ o2).
Definition get : M t := fun c => (c, c, []).
Definition modify (f : t -> t) : M unit := fun c => (tt, f c, []).
Definition notify (n : OnNetworkChanged) : M unit := fun c => (tt, c, [n]).

Definition result {A} (x : A * t * list OnNetworkChanged) : A := fst (fst x).
Definition state_of {A} (x : A * t * list OnNetworkChanged) : t := snd (fst x).
Definition calls {A} (x : A * t * list OnNetworkChanged)
  : list OnNetworkChanged := snd x.

Local Notation "'let*' x ':=' m 'in' k" := (bind m (fun x => k))
  (at level 10, x name, m at level 100, k at level 200).
Local Notation "m >> k" := (bind m (fun _ => k))
  (at level 90, right associativity).

(** Lines 109-112. *)
Definition SetStartBitrate (start_bitrate_bps : Z) : M unit :=
  modify (with_engine (SetSendBitrate start_bitrate_bps)).

(** Lines 114-118. *)
Definition SetMinMaxBitrate (min_bitrate_bps max_bitrate_bps : Z) : M unit :=
  modify (with_engine (Bwe.SetMinMaxBitrate min_bitrate_bps max_bitrate_bps)).

(** Lines 173-196. *)
Definition MaybeTriggerOnNetworkChanged : M unit :=
  let* c := get in
  let '(bitrate, fraction_loss, rtt) :=
    CurrentEstimate (bandwidth_estimation_ c) in
  let bitrate := u32 (bitrate - Z.min bitrate (reserved_bitrate_bps_ c)) in
  let bitrate := Z.max bitrate (GetMinBitrate (bandwidth_estimation_ c)) in
  if negb (bitrate =? last_bitrate_bps_ c)
     || negb (fraction_loss =? last_fraction_loss_ c)
     || negb (rtt =? last_rtt_ms_ c)
     || negb (last_reserved_bitrate_bps_ c =? reserved_bitrate_bps_ c)
  then
    modify (with_last_notified bitrate fraction_loss rtt) >>
    notify {| call_bitrate := bitrate;
              call_fraction_loss := fraction_loss;
              call_rtt := rtt |}
  else ret tt.

(** Lines 120-126. *)
Definition SetReservedBitrate (reserved_bitrate_bps : Z) : M unit :=
  modify (with_reserved reserved_bitrate_bps) >>
  MaybeTriggerOnNetworkChanged.

(** Lines 128-137; [clock] is the reading available to the suppressor. *)
Definition OnReceivedEstimatedBitrate (clock bitrate : Z) : M unit :=
  let* c := get in
  let '(suppress, r) := SuppresNewRemb clock bitrate (remb_suppressor_ c) in
  modify (with_suppressor r) >>
  if suppress then ret tt
  else
    modify (with_engine (UpdateReceiverEstimate bitrate)) >>
    MaybeTriggerOnNetworkChanged.

Definition kBitrateControllerUpdateIntervalMs : Z := 25.   (* line 140 *)

(** Lines 139-146; [now] is [clock_->TimeInMilliseconds()]. *)
Definition TimeUntilNextProcess (now : Z) : M Z :=
  let* c := get in
  let time_since_update_ms := s64 (now - last_bitrate_update_ms_ c) in
  ret (Z.max (s64 (kBitrateControllerUpdateIntervalMs - time_since_update_ms)) 0).

(** Lines 148-158; the clock is read three times, [now1], [now2], [now3]
    in program order. *)
Definition Process (now1 now2 now3 : Z) : M Z :=
  let* until := TimeUntilNextProcess now1 in
  if until >? 0 then ret 0
  else
    modify (with_engine (UpdateEstimate now2)) >>
    MaybeTriggerOnNetworkChanged >>
    modify (with_last_update now3) >>
    ret 0.

(** Lines 160-171. *)
Definition OnReceivedRtcpReceiverReport
    (fraction_loss rtt number_of_packets now_ms : Z) : M unit :=
  modify (with_engine
            (UpdateReceiverBlock fraction_loss rtt number_of_packets now_ms)) >>
  MaybeTriggerOnNetworkChanged.

(** Lines 198-210: [None] is [return false], [Some b] is [*bandwidth = b;
    return true]. *)
Definition AvailableBandwidth : M (option Z) :=
  let* c := get in
  let '(bitrate, fraction_loss, rtt) :=
    CurrentEstimate (bandwidth_estimation_ c) in
  if negb (bitrate =? 0) then
    let bandwidth := u32 (bitrate - Z.min bitrate (reserved_bitrate_bps_ c)) in
    let bandwidth :=
      Z.max bandwidth (GetMinBitrate (bandwidth_estimation_ c)) in
    ret (Some bandwidth)
  else ret None.

(** Lines 212-215. *)
Definition SetBitrateSent (clock bitrate_sent_bps : Z) : M unit :=
  modify (fun c =>
    with_suppressor
      (Remb.SetBitrateSent clock bitrate_sent_bps (remb_suppressor_ c)) c).

(** Lines 217-220. *)
Definition SetCodecMode (clock : Z) (mode : VideoCodecMode) : M unit :=
  modify (fun c =>
    with_suppressor
      (SetEnabled clock (is_screensharing mode) (remb_suppressor_ c)) c).

(** *** Change detection vocabulary *)

(** The externally visible tuple computed from the current state. *)
Definition exposed_formula (raw reserved engine_min : Z) : Z :=
  Z.max (raw - Z.min raw reserved) engine_min.

Definition snapshot (c : t) : Z * Z * Z * Z :=
  let '(bitrate, fraction_loss, rtt) :=
    CurrentEstimate (bandwidth_estimation_ c) in
  (exposed_formula bitrate (reserved_bitrate_bps_ c)
     (GetMinBitrate (bandwidth_estimation_ c)),
   fraction_loss, rtt, reserved_bitrate_bps_ c).

(** The tuple stored at the last notification. *)
Definition notified (c : t) : Z * Z * Z * Z :=
  (last_bitrate_bps_ c, last_fraction_loss_ c, last_rtt_ms_ c,
   last_reserved_bitrate_bps_ c).

Definition call_of (s : Z * Z * Z * Z) : OnNetworkChanged :=
  let '(bitrate, fraction_loss, rtt, _) := s in
  {| call_bitrate := bitrate;
     call_fraction_loss := fraction_loss;
     call_rtt := rtt |}.

(** "Exactly once if the snapshot differs from the notified tuple, not at
    all if it is the same", for a transition from [before] (the state the
    snapshot is compared against) to [after] with observer calls [out]. *)
Definition notifies_iff_changed
    (before after : t) (out : list OnNetworkChanged) : Prop :=
  (snapshot after <> notified before -> out = [call_of (snapshot after)]) /\
  (snapshot after = notified before -> out = []).

(** The engine fills unsigned 32-bit, unsigned 8-bit and signed 64-bit
    outputs. *)
Definition typed (c : t) : Prop :=
  is_u32 (fst (fst (CurrentEstimate (bandwidth_estimation_ c)))) /\
  is_u32 (GetMinBitrate (bandwidth_estimation_ c)) /\
  is_u32 (reserved_bitrate_bps_ c).
End WithCollaborators.
End BitrateControllerImpl.

(** ** RtcpBandwidthObserverImpl

    The object returned by [CreateRtcpBandwidthObserver]: its own state is the
    per-SSRC map, [owner_] is the controller. *)

Module RtcpBandwidthObserverImpl.
Section WithCollaborators.
Context {E R : Type} `{!BandwidthEstimation E} `{!RembSuppressor R}.
Import BitrateControllerImpl.

(** Lines 30-32. *)
Definition OnReceivedEstimatedBitrate (clock bitrate : Z)
  : M (E := E) (R := R) unit :=
  BitrateControllerImpl.OnReceivedEstimatedBitrate clock bitrate.

(** Lines 34-73: the result is the map after the call. *)
Definition OnReceivedRtcpReceiverReport
    (m : gmap Z Z) (report_blocks : list RTCPReportBlock) (rtt now_ms : Z)
  : M (E := E) (R := R) (gmap Z Z) :=
  match aggregate m report_blocks with
  | (m', Some (fraction_loss, packets)) =>
      bind (BitrateControllerImpl.OnReceivedRtcpReceiverReport
              fraction_loss rtt packets now_ms)
           (fun _ => ret m')
  | (m', None) => ret m'
  end.
End WithCollaborators.
End RtcpBandwidthObserverImpl.

(** ** The bandwidth estimation engine *)

Module Engine.
(** Modelled from the spec: the class of [bandwidth_estimation_] (its
    definition is in another translation unit).  The state is the
    specification's EstimationState; [bounds_set] records whether
    [set_min_max_bitrate] has been called ("if bounds already set"). *)
Record EstimationState : Type := {
  send_bitrate : Z;
  min_bitrate : Z;
  max_bitrate : Z;
  bounds_set : bool;
  receiver_cap : option Z;
  last_loss_fraction : Z;
  last_rtt_ms : Z;
  last_update_time : Z
}.

(** Modelled from the spec: the tunable parameters, whose roles the
    specification fixes and whose values it leaves open: the two loss marks,
    the cut as a function of bitrate and loss, the additive step as a
    function of the round-trip time, the staleness window and the decay. *)
Record Tuning : Type := {
  high_water_mark : Z;
  low_water_mark : Z;
  decrease : Z -> Z -> Z;
  increase_step : Z -> Z;
  staleness_window : Z;
  decay : Z -> Z
}.

(** Modelled from the spec: the engine before any call; the bitrate is
    "still zero/unset". *)
Definition initial : EstimationState :=
  {| send_bitrate := 0; min_bitrate := 0; max_bitrate := 0;
     bounds_set := false; receiver_cap := None;
     last_loss_fraction := 0; last_rtt_ms := 0; last_update_time := 0 |}.

Definition with_send_bitrate (b : Z) (s : EstimationState) : EstimationState :=
  {| send_bitrate := b; min_bitrate := min_bitrate s;
     max_bitrate := max_bitrate s; bounds_set := bounds_set s;
     receiver_cap := receiver_cap s;
     last_loss_fraction := last_loss_fraction s;
     last_rtt_ms := last_rtt_ms s; last_update_time := last_update_time s |}.

(** Modelled from the spec: clamping to [[min, max]], when the bounds are
    set. *)
Definition clamp_to_bounds (s : EstimationState) (b : Z) : Z :=
  if bounds_set s then Z.max (min_bitrate s) (Z.min (max_bitrate s) b) else b.

(** Modelled from the spec: clamping to
    [[min_bitrate, min(max_bitrate, receiver_cap)]]; the floor is applied
    last ("cannot cut below min_bitrate"). *)
Definition clamp_to_thresholds (s : EstimationState) (b : Z) : Z :=
  let b := match receiver_cap s with Some cap => Z.min cap b | None => b end in
  clamp_to_bounds s b.

(** Modelled from the spec: [set_send_bitrate(bps)], "clamped to [min, max]
    if bounds already set". *)
Definition set_send_bitrate (bps : Z) (s : EstimationState) : EstimationState :=
  with_send_bitrate (clamp_to_bounds s bps) s.

(** Modelled from the spec: [set_min_max_bitrate(min, max)], "updates
    bounds". *)
Definition set_min_max_bitrate (lo hi : Z) (s : EstimationState)
  : EstimationState :=
  {| send_bitrate := send_bitrate s; min_bitrate := lo; max_bitrate := hi;
     bounds_set := true; receiver_cap := receiver_cap s;
     last_loss_fraction := last_loss_fraction s;
     last_rtt_ms := last_rtt_ms s; last_update_time := last_update_time s |}.

(** Modelled from the spec: [update_receiver_estimate(cap_bps)] "records a
    new receiver-reported ceiling.  The effective send bitrate is re-clamped
    to not exceed this ceiling"; it never raises the bitrate. *)
Definition update_receiver_estimate (cap_bps : Z) (s : EstimationState)
  : EstimationState :=
  {| send_bitrate := Z.min (send_bitrate s) cap_bps;
     min_bitrate := min_bitrate s; max_bitrate := max_bitrate s;
     bounds_set := bounds_set s; receiver_cap := Some cap_bps;
     last_loss_fraction := last_loss_fraction s;
     last_rtt_ms := last_rtt_ms s; last_update_time := last_update_time s |}.

(** Modelled from the spec: [update_receiver_block]; a sample with
    [packet_count = 0] is ignored, otherwise loss above the high mark cuts,
    loss below the low mark adds a step, loss in between holds, and the
    result is clamped. *)
Definition update_receiver_block (tu : Tuning)
    (fraction_loss rtt_ms packet_count now_ms : Z) (s : EstimationState)
  : EstimationState :=
  if packet_count =? 0 then s
  else
    let b := send_bitrate s in
    let b' :=
      if fraction_loss >? high_water_mark tu then decrease tu b fraction_loss
      else if fraction_loss <? low_water_mark tu then b + increase_step tu rtt_ms
      else b in
    {| send_bitrate := clamp_to_thresholds s b';
       min_bitrate := min_bitrate s; max_bitrate := max_bitrate s;
       bounds_set := bounds_set s; receiver_cap := receiver_cap s;
       last_loss_fraction := fraction_loss;
       last_rtt_ms := rtt_ms; last_update_time := now_ms |}.

(** Modelled from the spec: [update_estimate(now_ms)]; when no receiver
    block has been processed for longer than the staleness window the
    bitrate decays toward the minimum. *)
Definition update_estimate (tu : Tuning) (now_ms : Z) (s : EstimationState)
  : EstimationState :=
  if now_ms - last_update_time s >? staleness_window tu
  then with_send_bitrate (clamp_to_thresholds s (decay tu (send_bitrate s))) s
  else s.

(** Modelled from the spec: the read-only accessors. *)
Definition current_estimate (s : EstimationState) : Z * Z * Z :=
  (send_bitrate s, last_loss_fraction s, last_rtt_ms s).

(** Modelled from the spec: the engine's entry points under the names the
    controller calls them by. *)
Definition spec_engine (tu : Tuning) : BandwidthEstimation EstimationState :=
  {| bwe_new := initial;
     SetSendBitrate := set_send_bitrate;
     SetMinMaxBitrate := set_min_max_bitrate;
     UpdateReceiverEstimate := update_receiver_estimate;
     UpdateReceiverBlock := update_receiver_block tu;
     UpdateEstimate := update_estimate tu;
     CurrentEstimate := current_estimate;
     GetMinBitrate := min_bitrate |}.

(** The five update entry points as data, for talking about sequences. *)
Inductive Update : Type :=
| set_send_bitrate_ (bps : Z)
| set_min_max_bitrate_ (lo hi : Z)
| update_receiver_estimate_ (cap_bps : Z)
| update_receiver_block_ (fraction_loss rtt_ms packet_count now_ms : Z)
| update_estimate_ (now_ms : Z).

Definition apply (tu : Tuning) (s : EstimationState) (u : Update)
  : EstimationState :=
  match u with
  | set_send_bitrate_ bps => set_send_bitrate bps s
  | set_min_max_bitrate_ lo hi => set_min_max_bitrate lo hi s
  | update_receiver_estimate_ cap => update_receiver_estimate cap s
  | update_receiver_block_ fl rtt n now => update_receiver_block tu fl rtt n now s
  | update_estimate_ now => update_estimate tu now s
  end.

Definition run (tu : Tuning) (s : EstimationState) (us : list Update)
  : EstimationState :=
  fold_left (apply tu) us s.






(** A tuning used in the examples (loss marks at 10% and 2% of 255). *)
Definition sample_tuning : Tuning :=
  {| high_water_mark := 26;
     low_water_mark := 5;
     decrease := fun b loss => Z.quot (b * (512 - loss)) 512;
     increase_step := fun rtt => Z.quot 100000 (rtt + 100);
     staleness_window := 3000;
     decay := fun b => Z.quot (b * 4) 5 |}.
End Engine.

(** ** The REMB suppressor *)

Module Suppressor.
(** Modelled from the spec: the class of [remb_suppressor_] (defined in
    another translation unit): "holds [enabled] and [last_bitrate_sent]". *)
Record State : Type := {
  enabled : bool;
  last_bitrate_sent : Z
}.

(** Modelled from the spec: a sample is suppressed only while enabled and
    only when it is an increase over the last bitrate sent by less than
    [margin]; a decrease always passes.  The specification leaves the
    margin open. *)
Definition suppress (margin bitrate : Z) (s : State) : bool :=
  enabled s
  && (last_bitrate_sent s <? bitrate)
  && (bitrate - last_bitrate_sent s <? margin).

(** Modelled from the spec: [set_bitrate_sent] and [set_enabled] store their
    argument; a new suppressor is disabled.  The filter itself keeps no state
    of its own and does not look at the clock. *)
Definition spec_suppressor (margin : Z) : RembSuppressor State :=
  {| remb_new := {| enabled := false; last_bitrate_sent := 0 |};
     SuppresNewRemb := fun _ bitrate s => (suppress margin bitrate s, s);
     SetBitrateSent := fun _ bps s =>
       {| enabled := enabled s; last_bitrate_sent := bps |};
     SetEnabled := fun _ on s =>
       {| enabled := on; last_bitrate_sent := last_bitrate_sent s |} |}.

(** A margin used in the examples. *)
Definition sample_margin : Z := 50000.
End Suppressor.

(** ** Events of the controller

    Every public entry point that changes state, as data, so that statements
    can range over "every event".  A report arrives at an
    [RtcpBandwidthObserverImpl], whose per-SSRC map [m] is carried by the
    event; [step] follows the controller. *)

Module Events.
Section WithCollaborators.
Context {E R : Type} `{!BandwidthEstimation E} `{!RembSuppressor R}.
Import BitrateControllerImpl.

Inductive Event : Type :=
| EstimateArrival (clock bitrate : Z)
| ReportArrival (m : gmap Z Z) (report_blocks : list RTCPReportBlock)
                (rtt now_ms : Z)
| Tick (now1 now2 now3 : Z)
| ReservedChange (reserved_bitrate_bps : Z)
| StartBitrateChange (start_bitrate_bps : Z)
| MinMaxChange (min_bitrate_bps max_bitrate_bps : Z)
| BitrateSentChange (clock bitrate_sent_bps : Z)
| CodecModeChange (clock : Z) (mode : VideoCodecMode).

Definition step (ev : Event) : M (E := E) (R := R) unit :=
  match ev with
  | EstimateArrival clock bitrate =>
      RtcpBandwidthObserverImpl.OnReceivedEstimatedBitrate clock bitrate
  | ReportArrival m report_blocks rtt now_ms =>
      bind (RtcpBandwidthObserverImpl.OnReceivedRtcpReceiverReport
              m report_blocks rtt now_ms)
           (fun _ => ret tt)
  | Tick now1 now2 now3 => bind (Process now1 now2 now3) (fun _ => ret tt)
  | ReservedChange r => SetReservedBitrate r
  | StartBitrateChange b => SetStartBitrate b
  | MinMaxChange lo hi => SetMinMaxBitrate lo hi
  | BitrateSentChange clock b => SetBitrateSent clock b
  | CodecModeChange clock mode => SetCodecMode clock mode
  end.

(** Whether the event, arriving in state [c], takes a path of the source
    that ends in [MaybeTriggerOnNetworkChanged()]. *)
Definition reaches_change_detection (c : t (E := E) (R := R)) (ev : Event)
  : bool :=
  match ev with
  | EstimateArrival clock bitrate =>
      negb (fst (SuppresNewRemb clock bitrate (remb_suppressor_ c)))
  | ReportArrival m report_blocks _ _ =>
      match snd (aggregate m report_blocks) with
      | Some _ => true
      | None => false
      end
  | Tick now1 _ _ => negb (result (TimeUntilNextProcess now1 c) >? 0)
  | ReservedChange _ => true
  | StartBitrateChange _ | MinMaxChange _ _
  | BitrateSentChange _ _ | CodecModeChange _ _ => false
  end.

Definition run_events (c : t (E := E) (R := R)) (evs : list Event)
  : t * list OnNetworkChanged :=
  fold_left
    (fun acc ev =>
       let r := step ev (fst acc) in (state_of r, snd acc ++ calls r))
    evs (c, []).
End WithCollaborators.
End Events.

(** ** The aggregation rule in the specification's words *)

Module AggregationRule.
(** [packets_since_last = current_extended_highest_seq - recorded_value],
    zero for a flow without a record, as an integer without wrap-around. *)
Definition packets_since_last (m : gmap Z Z) (b : RTCPReportBlock) : Z :=
  match m !! sourceSSRC b with
  | Some recorded => extendedHighSeqNum b - recorded
  | None => 0
  end.

(** The weights of a batch, each block seeing the records as left by the
    blocks before it. *)
Fixpoint weights (m : gmap Z Z) (bs : list RTCPReportBlock) : list Z :=
  match bs with
  | [] => []
  | b :: bs' =>
      packets_since_last m b
      :: weights (<[sourceSSRC b := extendedHighSeqNum b]> m) bs'
  end.

Fixpoint records_after (m : gmap Z Z) (bs : list RTCPReportBlock) : gmap Z Z :=
  match bs with
  | [] => m
  | b :: bs' => records_after (<[sourceSSRC b := extendedHighSeqNum b]> m) bs'
  end.

Fixpoint sum (l : list Z) : Z :=
  match l with [] => 0 | x :: l' => x + sum l' end.

Fixpoint weighted_loss (ws : list Z) (bs : list RTCPReportBlock) : Z :=
  match ws, bs with
  | w :: ws', b :: bs' => w * fractionLost b + weighted_loss ws' bs'
  | _, _ => 0
  end.

(** [round(n / d)] for [d > 0], halves rounded up: the floor of
    [n/d + 1/2]. *)
Definition round_half_up (n d : Z) : Z := (2 * n + d) / (2 * d).

(** The weights as the loop computes them ([number_of_packets]). *)
Fixpoint computed_weights (m : gmap Z Z) (bs : list RTCPReportBlock) : list Z :=
  match bs with
  | [] => []
  | b :: bs' =>
      number_of_packets m b
      :: computed_weights (<[sourceSSRC b := extendedHighSeqNum b]> m) bs'
  end.
End AggregationRule.

(** ** A concrete controller

    The controller over the engine and the suppressor of the specification,
    with the sample tuning, and a few reachable states. *)

Module Scenario.
Import BitrateControllerImpl Events.

Definition engine : BandwidthEstimation Engine.EstimationState :=
  Engine.spec_engine Engine.sample_tuning.

Definition suppressor : RembSuppressor Suppressor.State :=
  Suppressor.spec_suppressor Suppressor.sample_margin.

Definition controller : Type :=
  @t Engine.EstimationState Suppressor.State.

Definition step (ev : Event) (c : controller)
  : unit * controller * list OnNetworkChanged :=
  @Events.step _ _ engine suppressor ev c.

Definition after (c : controller) (evs : list Event) : controller :=
  fst (@run_events _ _ engine suppressor c evs).

(** The controller as constructed at clock reading 0. *)
Definition fresh : controller := @create _ _ engine suppressor 0.

(** [SetStartBitrate(500000)] on the fresh controller. *)
Definition started : controller := after fresh [StartBitrateChange 500000].

(** [SetMinMaxBitrate(50000, 2000000); SetStartBitrate(500000)]. *)
Definition configured : controller :=
  after fresh [MinMaxChange 50000 2000000; StartBitrateChange 500000].

(** Screen sharing with 200000 bps last sent, after a start bitrate. *)
Definition screensharing : controller :=
  after fresh [StartBitrateChange 500000;
               CodecModeChange 0 kScreensharing;
               BitrateSentChange 0 200000].
End Scenario.

(** ** Vocabulary for the per-SSRC records and for the notification log *)

Module Records.
(** The [extendedHighSeqNum] of the last block of the batch that names
    [ssrc], if any. *)
Fixpoint last_reported (ssrc : Z) (bs : list RTCPReportBlock) : option Z :=
  match bs with
  | [] => None
  | b :: bs' =>
      match last_reported ssrc bs' with
      | Some e => Some e
      | None =>
          if decide (sourceSSRC b = ssrc) then Some (extendedHighSeqNum b)
          else None
      end
  end.
End Records.

Module NotificationLog.
Section WithCollaborators.
Context {E R : Type}.
Import BitrateControllerImpl.

(** The three [last_] members that are handed to the observer agree with the
    arguments of the most recent call of the log, and are still zero when no
    call has been made. *)
Definition mirrors (c : t (E := E) (R := R)) (out : list OnNetworkChanged)
  : Prop :=
  (last_bitrate_bps_ c, last_fraction_loss_ c, last_rtt_ms_ c)
  = match last out with
    | Some k => (call_bitrate k, call_fraction_loss k, call_rtt k)
    | None => (0, 0, 0)
    end.

(** A transition either leaves the three members alone and is silent, or
    makes one call and stores its arguments. *)
Definition silent_or_one_call (c : t (E := E) (R := R))
    (r : unit * t (E := E) (R := R) * list OnNetworkChanged)
  : Prop :=
  (calls r = []
   /\ last_bitrate_bps_ (state_of r) = last_bitrate_bps_ c
   /\ last_fraction_loss_ (state_of r) = last_fraction_loss_ c
   /\ last_rtt_ms_ (state_of r) = last_rtt_ms_ c)
  \/ exists k,
       calls r = [k]
       /\ last_bitrate_bps_ (state_of r) = call_bitrate k
       /\ last_fraction_loss_ (state_of r) = call_fraction_loss k
       /\ last_rtt_ms_ (state_of r) = call_rtt k.
End WithCollaborators.
End NotificationLog.

(** Clock readings for which the 64-bit subtractions of
    [TimeUntilNextProcess] cannot wrap. *)
Definition is_time (x : Z) : Prop := - 2 ^ 61 <= x <= 2 ^ 61.

(** ** AudioState ([audio/audio_state.cc])

    The stream registry of the audio pipeline.  Stream pointers are
    addresses; [std::set] is a [gset], [std::map] a [gmap].  The mixer, the
    audio device module and the audio transport are collaborators defined
    elsewhere: the calls made into them are logged in program order, and the
    answers the device module gives ([Playing()], [InitPlayout()], ...) are
    arguments of the member function that asks.  [RTC_DCHECK]s are debug
    assertions and compile to nothing in a release build; where a property
    relies on one it is a hypothesis. *)

Module AudioState.

Inductive Command : Type :=
| MixerAddSource (stream : Z)
| MixerRemoveSource (stream : Z)
| AdmInitPlayout
| AdmStartPlayout
| AdmStopPlayout
| AdmInitRecording
| AdmStartRecording
| AdmStopRecording
| TransportUpdateAudioSenders
    (audio_senders : list Z) (max_sample_rate_hz max_num_channels : Z)
| TransportSetStereoChannelSwapping (enable : bool).

(** [StreamProperties], the mapped type of [sending_streams_]. *)
Record StreamProperties : Type := {
  sample_rate_hz : Z;    (* int *)
  num_channels : Z       (* size_t *)
}.

(** The data members the member functions of the file read or write;
    [null_audio_poller_running] is [null_audio_poller_.Running()]: a handle
    runs from [RepeatingTaskHandle::Start] until [Stop] (the task of lines
    184-200 always asks to be repeated). *)
Record t : Type := {
  receiving_streams_ : gset Z;
  sending_streams_ : gmap Z StreamProperties;
  playout_enabled_ : bool;
  recording_enabled_ : bool;
  null_audio_poller_running : bool
}.

(** Lines 29-35.  The initial values of [playout_enabled_] and
    [recording_enabled_] are member initialisers of the class declaration. *)
Definition create (playout_enabled recording_enabled : bool) : t :=
  {| receiving_streams_ := ∅;
     sending_streams_ := ∅;
     playout_enabled_ := playout_enabled;
     recording_enabled_ := recording_enabled;
     null_audio_poller_running := false |}.

Definition with_receiving (r : gset Z) (st : t) : t :=
  {| receiving_streams_ := r;
     sending_streams_ := sending_streams_ st;
     playout_enabled_ := playout_enabled_ st;
     recording_enabled_ := recording_enabled_ st;
     null_audio_poller_running := null_audio_poller_running st |}.

Definition with_sending (m : gmap Z StreamProperties) (st : t) : t :=
  {| receiving_streams_ := receiving_streams_ st;
     sending_streams_ := m;
     playout_enabled_ := playout_enabled_ st;
     recording_enabled_ := recording_enabled_ st;
     null_audio_poller_running := null_audio_poller_running st |}.

Definition with_playout_enabled (b : bool) (st : t) : t :=
  {| receiving_streams_ := receiving_streams_ st;
     sending_streams_ := sending_streams_ st;
     playout_enabled_ := b;
     recording_enabled_ := recording_enabled_ st;
     null_audio_poller_running := null_audio_poller_running st |}.

Definition with_recording_enabled (b : bool) (st : t) : t :=
  {| receiving_streams_ := receiving_streams_ st;
     sending_streams_ := sending_streams_ st;
     playout_enabled_ := playout_enabled_ st;
     recording_enabled_ := b;
     null_audio_poller_running := null_audio_poller_running st |}.

Definition with_poller (running : bool) (st : t) : t :=
  {| receiving_streams_ := receiving_streams_ st;
     sending_streams_ := sending_streams_ st;
     playout_enabled_ := playout_enabled_ st;
     recording_enabled_ := recording_enabled_ st;
     null_audio_poller_running := running |}.

Definition receiving_empty (st : t) : bool :=
  bool_decide (receiving_streams_ st = ∅).

Definition sending_empty (st : t) : bool :=
  bool_decide (sending_streams_ st = ∅).

(** Lines 176-206. *)
Definition UpdateNullAudioPollerState (st : t) : t :=
  if negb (receiving_empty st) && negb (playout_enabled_ st) then
    if negb (null_audio_poller_running st) then with_poller true st else st
  else with_poller false st.

(** The entries of [sending_streams_] in the order a [std::map] is
    traversed: by ascending key. *)
Definition key_le (a b : Z * StreamProperties) : Prop := fst a <= fst b.

Definition key_le_dec (a b : Z * StreamProperties) : Decision (key_le a b) :=
  Z_le_dec (fst a) (fst b).

Definition in_key_order (m : gmap Z StreamProperties)
  : list (Z * StreamProperties) :=
  @merge_sort _ key_le key_le_dec (map_to_list m).

(** Lines 167-171: one iteration of the loop over [sending_streams_]. *)
Definition senders_step (acc : list Z * Z * Z) (kv : Z * StreamProperties)
  : list Z * Z * Z :=
  let '(audio_senders, max_sample_rate_hz, max_num_channels) := acc in
  (audio_senders ++ [fst kv],
   Z.max max_sample_rate_hz (sample_rate_hz (snd kv)),
   Z.max max_num_channels (num_channels (snd kv))).

(** Lines 162-174. *)
Definition UpdateAudioTransportWithSendingStreams (st : t) : list Command :=
  let '(audio_senders, max_sample_rate_hz, max_num_channels) :=
    fold_left senders_step (in_key_order (sending_streams_ st)) ([], 8000, 1) in
  [TransportUpdateAudioSenders audio_senders max_sample_rate_hz max_num_channels].

(** Lines 58-79; [playing] answers [adm->Playing()], [init_playout] is what
    [adm->InitPlayout()] returns when it is called. *)
Definition AddReceivingStream (stream : Z) (playing : bool) (init_playout : Z)
    (st : t) : t * list Command :=
  let st := with_receiving ({[stream]} ∪ receiving_streams_ st) st in
  let st := UpdateNullAudioPollerState st in
  (st,
   MixerAddSource stream
   :: (if negb playing then
         AdmInitPlayout
         :: (if init_playout =? 0 then
               if playout_enabled_ st then [AdmStartPlayout] else []
             else [])
       else [])).

(** Lines 81-91. *)
Definition RemoveReceivingStream (stream : Z) (st : t) : t * list Command :=
  let st := with_receiving (receiving_streams_ st ∖ {[stream]}) st in
  let st := UpdateNullAudioPollerState st in
  (st,
   MixerRemoveSource stream
   :: (if receiving_empty st then [AdmStopPlayout] else [])).

(** Lines 93-113; [recording] answers [adm->Recording()], [init_recording]
    is what [adm->InitRecording()] returns when it is called. *)
Definition AddSendingStream (stream sample_rate num_ch : Z)
    (recording : bool) (init_recording : Z) (st : t) : t * list Command :=
  let st :=
    with_sending
      (<[stream := {| sample_rate_hz := sample_rate; num_channels := num_ch |}]>
         (sending_streams_ st)) st in
  (st,
   UpdateAudioTransportWithSendingStreams st
   ++ (if negb recording then
         AdmInitRecording
         :: (if init_recording =? 0 then
               if recording_enabled_ st then [AdmStartRecording] else []
             else [])
       else [])).

(** Lines 115-123. *)
Definition RemoveSendingStream (stream : Z) (st : t) : t * list Command :=
  let st := with_sending (delete stream (sending_streams_ st)) st in
  (st,
   UpdateAudioTransportWithSendingStreams st
   ++ (if sending_empty st then [AdmStopRecording] else [])).

(** Lines 125-140. *)
Definition SetPlayout (enabled : bool) (st : t) : t * list Command :=
  if negb (eqb (playout_enabled_ st) enabled) then
    let st := with_playout_enabled enabled st in
    if enabled then
      let st := UpdateNullAudioPollerState st in
      (st, if negb (receiving_empty st) then [AdmStartPlayout] else [])
    else
      (UpdateNullAudioPollerState st, [AdmStopPlayout])
  else (st, []).

(** Lines 142-155. *)
Definition SetRecording (enabled : bool) (st : t) : t * list Command :=
  if negb (eqb (recording_enabled_ st) enabled) then
    let st := with_recording_enabled enabled st in
    if enabled then
      (st, if negb (sending_empty st) then [AdmStartRecording] else [])
    else (st, [AdmStopRecording])
  else (st, []).

(** Lines 157-160: forwards to the transport. *)
Definition SetStereoChannelSwapping (enable : bool) (st : t) : t * list Command :=
  (st, [TransportSetStereoChannelSwapping enable]).

(** The member functions as data, each with the answers it receives. *)
Inductive Call : Type :=
| AddReceivingStream_ (stream : Z) (playing : bool) (init_playout : Z)
| RemoveReceivingStream_ (stream : Z)
| AddSendingStream_ (stream sample_rate num_ch : Z)
                    (recording : bool) (init_recording : Z)
| RemoveSendingStream_ (stream : Z)
| SetPlayout_ (enabled : bool)
| SetRecording_ (enabled : bool)
| SetStereoChannelSwapping_ (enable : bool).

Definition perform (st : t) (call : Call) : t * list Command :=
  match call with
  | AddReceivingStream_ s playing init => AddReceivingStream s playing init st
  | RemoveReceivingStream_ s => RemoveReceivingStream s st
  | AddSendingStream_ s rate ch recording init =>
      AddSendingStream s rate ch recording init st
  | RemoveSendingStream_ s => RemoveSendingStream s st
  | SetPlayout_ b => SetPlayout b st
  | SetRecording_ b => SetRecording b st
  | SetStereoChannelSwapping_ b => SetStereoChannelSwapping b st
  end.

Definition run (st : t) (calls : list Call) : t :=
  fold_left (fun st call => fst (perform st call)) calls st.

(** "Run NullAudioPoller when there are receiving streams and playout is
    disabled." *)
Definition poller_as_intended (st : t) : Prop :=
  null_audio_poller_running st
  = negb (receiving_empty st) && negb (playout_enabled_ st).

(** An example state: playout disabled, one sending stream at 48 kHz
    stereo. *)
Definition muted_with_sender : t :=
  run (create false true)
      [AddSendingStream_ 4096 48000 2 false 0].
End AudioState.

(** * Properties *)

(** ** Fixed-width arithmetic *)

Lemma s32_small (x : Z) : is_s32 x -> s32 x = x.
Proof. unfold is_s32, s32. intros Hx. rewrite Z.mod_small; lia. Qed.

Lemma u32_small (x : Z) : is_u32 x -> u32 x = x.
Proof. unfold is_u32, u32. intros Hx. apply Z.mod_small. lia. Qed.

Lemma u8_small (x : Z) : is_u8 x -> u8 x = x.
Proof. unfold is_u8, u8. intros Hx. apply Z.mod_small. lia. Qed.

(** An unsigned 32-bit difference read back as [int]: the true difference
    whenever that fits. *)
Lemma s32_u32_diff (d : Z) : is_s32 d -> s32 (u32 d) = d.
Proof.
  unfold is_s32, s32, u32. intros Hd.
  destruct (Z_lt_le_dec d 0) as [Hneg | Hpos].
  - replace (d mod 2 ^ 32) with (d + 2 ^ 32).
    + replace (d + 2 ^ 32 + 2 ^ 31) with (d + 2 ^ 31 + 1 * 2 ^ 32) by lia.
      rewrite Z.mod_add by lia. rewrite Z.mod_small; lia.
    + apply Z.mod_unique with (q := -1); lia.
  - rewrite (Z.mod_small d) by lia. rewrite Z.mod_small; lia.
Qed.

Lemma s32_u32_diff_wrapped (d : Z) :
  - 2 ^ 32 < d < - 2 ^ 31 -> s32 (u32 d) = d + 2 ^ 32.
Proof.
  unfold s32, u32. intros Hd.
  replace (d mod 2 ^ 32) with (d + 2 ^ 32).
  - rewrite Z.mod_small; lia.
  - apply Z.mod_unique with (q := -1); lia.
Qed.

(** ** The aggregation loop *)

Lemma number_of_packets_known (m : gmap Z Z) (b : RTCPReportBlock) (last : Z) :
  m !! sourceSSRC b = Some last ->
  number_of_packets m b = s32 (u32 (extendedHighSeqNum b - last)).
Proof. intros Hm. unfold number_of_packets. rewrite Hm. reflexivity. Qed.

Lemma loop_body_records (st : LoopState) (b : RTCPReportBlock) :
  ssrc_to_last_received_extended_high_seq_num_ (loop_body st b)
  = <[sourceSSRC b := extendedHighSeqNum b]>
      (ssrc_to_last_received_extended_high_seq_num_ st).
Proof. reflexivity. Qed.

(** C2, as the code has it: a block whose [extendedHighSeqNum] is below the
    stored watermark of its SSRC gets the 32-bit difference read as [int] for
    its packet count, which is the negative number [ext - last] whenever the
    gap is at most 2^31 (and [ext - last + 2^32] beyond that); nothing clamps
    it: it is added as it is to the total and, times [fractionLost], to the
    weighted sum (in [int] arithmetic), and the stored watermark is
    overwritten with the block's smaller value. *)
Theorem regressed_block_negative_count_and_watermark_overwritten
    (st : LoopState) (b : RTCPReportBlock) (last : Z) :
  block_ok b ->
  is_u32 last ->
  ssrc_to_last_received_extended_high_seq_num_ st !! sourceSSRC b = Some last ->
  extendedHighSeqNum b < last ->
  let n := number_of_packets (ssrc_to_last_received_extended_high_seq_num_ st) b in
  n = (if decide (last - extendedHighSeqNum b <= 2 ^ 31)
       then extendedHighSeqNum b - last
       else extendedHighSeqNum b - last + 2 ^ 32)
  /\ (last - extendedHighSeqNum b <= 2 ^ 31 -> n < 0)
  /\ total_number_of_packets (loop_body st b)
     = s32 (total_number_of_packets st + n)
  /\ fraction_lost_aggregate (loop_body st b)
     = s32 (fraction_lost_aggregate st + s32 (n * fractionLost b))
  /\ (exists w,
        ssrc_to_last_received_extended_high_seq_num_ (loop_body st b)
          !! sourceSSRC b = Some w
        /\ w = extendedHighSeqNum b /\ w < last).
Proof.
  intros (_ & _ & Hext) Hlast Hm Hlt n. subst n.
  rewrite (number_of_packets_known _ _ _ Hm).
  unfold is_u32 in *.
  assert (Hn : s32 (u32 (extendedHighSeqNum b - last))
               = if decide (last - extendedHighSeqNum b <= 2 ^ 31)
                 then extendedHighSeqNum b - last
                 else extendedHighSeqNum b - last + 2 ^ 32).
  { case_decide.
    - apply s32_u32_diff. unfold is_s32. lia.
    - apply s32_u32_diff_wrapped. lia. }
  rewrite Hn. repeat split.
  - intros Hgap. rewrite decide_True by lia. lia.
  - unfold loop_body. simpl. rewrite (number_of_packets_known _ _ _ Hm), Hn.
    reflexivity.
  - unfold loop_body. simpl. rewrite (number_of_packets_known _ _ _ Hm), Hn.
    reflexivity.
  - exists (extendedHighSeqNum b). rewrite loop_body_records.
    split; [apply lookup_insert_eq | split; [reflexivity | exact Hlt]].
Qed.

Lemma regressed_block_witness :
  let st := loop_init (<[1 := 100]> ∅) in
  let b := blk 1 255 90 in
  number_of_packets (ssrc_to_last_received_extended_high_seq_num_ st) b = -10
  /\ total_number_of_packets (loop_body st b) = -10
  /\ fraction_lost_aggregate (loop_body st b) = -2550
  /\ ssrc_to_last_received_extended_high_seq_num_ (loop_body st b) !! 1 = Some 90.
Proof.
  intros st b.
  destruct (regressed_block_negative_count_and_watermark_overwritten st b 100)
    as (Hn & _ & Ht & Ha & w & Hm & -> & _).
  - unfold block_ok, is_u32, is_u8, b; simpl; lia.
  - unfold is_u32; lia.
  - reflexivity.
  - simpl; lia.
  - cbv zeta in Hn, Ht, Ha. rewrite Hn in Ht, Ha.
    rewrite decide_True in Hn, Ht, Ha by (simpl; lia).
    split; [exact Hn |]. split; [exact Ht |]. split; [exact Ha | exact Hm].
Defined.

(** C2, as stated, fails: with watermark 100 stored for SSRC 1, a block for
    SSRC 1 carrying 90 is counted as -10 packets (not clamped to zero) and
    leaves 90 in the map (the watermark moved backward). *)
Lemma regressed_block_counterexample :
  extendedHighSeqNum (blk 1 255 90) < 100
  /\ ~ (0 <= number_of_packets (<[1 := 100]> ∅) (blk 1 255 90))
  /\ ~ (forall w,
          ssrc_to_last_received_extended_high_seq_num_
            (loop_body (loop_init (<[1 := 100]> ∅)) (blk 1 255 90)) !! 1 = Some w ->
          100 <= w).
Proof.
  split; [simpl; lia |]. split.
  - vm_compute. intros H. apply H. reflexivity.
  - intros H. specialize (H 90).
    assert (Hw : 100 <= 90) by (apply H; reflexivity). lia.
Qed.

(** ** The weighted average *)

Import AggregationRule.

Lemma sum_nonneg (ws : list Z) : Forall (fun w => 0 <= w) ws -> 0 <= sum ws.
Proof. induction 1; simpl; lia. Qed.

Lemma weighted_loss_nonneg (ws : list Z) (bs : list RTCPReportBlock) :
  Forall (fun w => 0 <= w) ws ->
  Forall (fun b => is_u8 (fractionLost b)) bs ->
  0 <= weighted_loss ws bs.
Proof.
  intros Hws. revert bs.
  induction Hws as [| w ws Hw _ IH]; intros bs Hbs; simpl; [lia |].
  destruct Hbs as [| b bs Hb Hbs]; [lia |].
  specialize (IH bs Hbs). unfold is_u8 in Hb. nia.
Qed.

Lemma weighted_loss_le (ws : list Z) (bs : list RTCPReportBlock) :
  Forall (fun w => 0 <= w) ws ->
  Forall (fun b => is_u8 (fractionLost b)) bs ->
  weighted_loss ws bs <= 255 * sum ws.
Proof.
  intros Hws. revert bs.
  induction Hws as [| w ws Hw Hws IH]; intros bs Hbs; simpl; [lia |].
  destruct Hbs as [| b bs Hb Hbs].
  - pose proof (sum_nonneg ws Hws). lia.
  - specialize (IH bs Hbs). unfold is_u8 in Hb. nia.
Qed.

(** Without overflow and without regressed watermarks the loop computes the
    sums of the rule. *)
Lemma fold_loop_body_exact (bs : list RTCPReportBlock) :
  forall st : LoopState,
    let m := ssrc_to_last_received_extended_high_seq_num_ st in
    Forall (fun b => is_u8 (fractionLost b)) bs ->
    Forall (fun w => 0 <= w) (weights m bs) ->
    0 <= fraction_lost_aggregate st ->
    0 <= total_number_of_packets st ->
    fraction_lost_aggregate st + weighted_loss (weights m bs) bs < 2 ^ 31 ->
    total_number_of_packets st + sum (weights m bs) < 2 ^ 31 ->
    fold_left loop_body bs st
    = {| ssrc_to_last_received_extended_high_seq_num_ := records_after m bs;
         fraction_lost_aggregate :=
           fraction_lost_aggregate st + weighted_loss (weights m bs) bs;
         total_number_of_packets :=
           total_number_of_packets st + sum (weights m bs) |}.
Proof.
  induction bs as [| b bs IH]; intros st m Hfl Hws Hagg Htot Hagg_hi Htot_hi.
  - simpl. destruct st; simpl. f_equal; lia.
  - simpl in *. subst m.
    set (m := ssrc_to_last_received_extended_high_seq_num_ st) in *.
    inversion Hfl as [| ? ? Hb Hbs]; subst.
    inversion Hws as [| ? ? Hw Hws']; subst.
    pose proof (sum_nonneg _ Hws') as Hsum.
    pose proof (weighted_loss_nonneg _ _ Hws' Hbs) as Hwl.
    unfold is_u8 in Hb.
    assert (Hprod : 0 <= packets_since_last m b * fractionLost b) by nia.
    assert (Hn : number_of_packets m b = packets_since_last m b).
    { unfold number_of_packets, packets_since_last in *.
      destruct (m !! sourceSSRC b) as [last |]; [| reflexivity].
      apply s32_u32_diff. unfold is_s32. lia. }
    assert (Hstep : loop_body st b
      = {| ssrc_to_last_received_extended_high_seq_num_ :=
             <[sourceSSRC b := extendedHighSeqNum b]> m;
           fraction_lost_aggregate :=
             fraction_lost_aggregate st + packets_since_last m b * fractionLost b;
           total_number_of_packets :=
             total_number_of_packets st + packets_since_last m b |}).
    { unfold loop_body. fold m. rewrite Hn.
      rewrite (s32_small (packets_since_last m b * fractionLost b))
        by (unfold is_s32; lia).
      rewrite !s32_small by (unfold is_s32; lia). reflexivity. }
    rewrite Hstep. rewrite IH; simpl; try assumption; try lia.
    f_equal; lia.
Qed.

(** The quotient of lines 66-67 is rounding to nearest, halves up. *)
Lemma quot_is_round_half_up (n d : Z) :
  0 <= n -> 0 < d -> Z.quot (n + Z.quot d 2) d = round_half_up n d.
Proof.
  intros Hn Hd. unfold round_half_up.
  rewrite (Z.quot_div_nonneg d 2) by lia.
  assert (Hh : 0 <= d / 2) by (apply Z.div_pos; lia).
  rewrite Z.quot_div_nonneg by lia.
  pose proof (Z.div_mod d 2 ltac:(lia)) as Hd2.
  pose proof (Z.mod_pos_bound d 2 ltac:(lia)) as Hr0.
  pose proof (Z.div_mod (n + d / 2) d ltac:(lia)) as Hq.
  pose proof (Z.mod_pos_bound (n + d / 2) d ltac:(lia)) as Hr1.
  apply Z.div_unique with (r := 2 * ((n + d / 2) mod d) + d mod 2); [lia |].
  set (q := (n + d / 2) / d) in *. set (r := (n + d / 2) mod d) in *.
  set (h := d / 2) in *. set (r0 := d mod 2) in *. nia.
Qed.

(** [round_half_up n d] is the integer nearest to [n/d], the upper one on a
    tie. *)
Lemma round_half_up_nearest (n d : Z) :
  0 < d ->
  2 * n - d < 2 * d * round_half_up n d <= 2 * n + d.
Proof.
  intros Hd. unfold round_half_up.
  pose proof (Z.div_mod (2 * n + d) (2 * d) ltac:(lia)) as Hq.
  pose proof (Z.mod_pos_bound (2 * n + d) (2 * d) ltac:(lia)) as Hr.
  lia.
Qed.

Lemma fold_loop_body_records (bs : list RTCPReportBlock) :
  forall st : LoopState,
    ssrc_to_last_received_extended_high_seq_num_ (fold_left loop_body bs st)
    = records_after (ssrc_to_last_received_extended_high_seq_num_ st) bs.
Proof.
  induction bs as [| b bs IH]; intros st; simpl; [reflexivity |].
  rewrite IH. reflexivity.
Qed.

(** C5, as the code has it: when every flow of the batch has a non-negative
    sequence delta (no regressed watermark), the total weight is positive and
    the sums fit in [int], the batch is forwarded with
    [round(sum (w_i * loss_i) / sum w_i)], halves rounded up, and with the total
    weight as packet count.  Two flows with deltas 100 and 50 and loss
    fractions 10 and 40 give 3000/150 = 20. *)
Theorem aggregate_is_rounded_weighted_mean
    (m : gmap Z Z) (bs : list RTCPReportBlock) :
  Forall (fun b => is_u8 (fractionLost b)) bs ->
  Forall (fun w => 0 <= w) (weights m bs) ->
  0 < sum (weights m bs) ->
  sum (weights m bs) < 2 ^ 31 ->
  weighted_loss (weights m bs) bs + sum (weights m bs) / 2 < 2 ^ 31 ->
  aggregate m bs
  = (records_after m bs,
     Some (round_half_up (weighted_loss (weights m bs) bs) (sum (weights m bs)),
           sum (weights m bs))).
Proof.
  intros Hfl Hws Hpos Htot Hagg.
  pose proof (weighted_loss_nonneg _ _ Hws Hfl) as Hwl.
  pose proof (weighted_loss_le _ _ Hws Hfl) as Hle.
  assert (Hhalf : 0 <= sum (weights m bs) / 2) by (apply Z.div_pos; lia).
  assert (Hrun : run_loop m bs
    = {| ssrc_to_last_received_extended_high_seq_num_ := records_after m bs;
         fraction_lost_aggregate := weighted_loss (weights m bs) bs;
         total_number_of_packets := sum (weights m bs) |}).
  { unfold run_loop. rewrite fold_loop_body_exact; simpl; try assumption; try lia.
    reflexivity. }
  destruct bs as [| b bs]; [simpl in Hpos; lia |].
  unfold aggregate. rewrite Hrun. cbn [ssrc_to_last_received_extended_high_seq_num_
    fraction_lost_aggregate total_number_of_packets].
  set (n := weighted_loss (weights m (b :: bs)) (b :: bs)) in *.
  set (d := sum (weights m (b :: bs))) in *.
  pose proof (round_half_up_nearest n d Hpos) as Hnear.
  assert (Hr : 0 <= round_half_up n d <= 255) by nia.
  assert (Havg : weighted_average n d = round_half_up n d).
  { unfold weighted_average.
    destruct (Z.eqb_spec d 0) as [-> | _]; [lia |].
    rewrite (Z.quot_div_nonneg d 2) by lia.
    rewrite (s32_small (n + d / 2)) by (unfold is_s32; lia).
    rewrite <- (Z.quot_div_nonneg d 2) by lia.
    rewrite quot_is_round_half_up by lia.
    apply s32_small. unfold is_s32. lia. }
  rewrite Havg.
  destruct (Z.gtb_spec (round_half_up n d) 255) as [Hgt | _]; [lia |].
  rewrite u8_small by (unfold is_u8; lia). reflexivity.
Qed.

Lemma aggregate_two_flows_witness :
  snd (aggregate (<[1 := 1000]> (<[2 := 2000]> ∅)) [blk 1 10 1100; blk 2 40 2050])
  = Some (20, 150).
Proof.
  rewrite (aggregate_is_rounded_weighted_mean
             (<[1 := 1000]> (<[2 := 2000]> ∅)) [blk 1 10 1100; blk 2 40 2050]).
  - vm_compute. reflexivity.
  - repeat constructor; simpl; lia.
  - repeat constructor; vm_compute; discriminate.
  - vm_compute. reflexivity.
  - vm_compute. reflexivity.
  - vm_compute. reflexivity.
Defined.

(** C5, as stated, fails on its own example: deltas 100 and 50 with loss
    fractions 10 and 40 are forwarded as 20, not 12.  The general formula
    fails as well once a watermark regresses: with deltas 100 and -10 and loss
    fractions 0 and 255 the total weight is 90 > 0, the weighted sum is -2550,
    and the value forwarded is 229, which is neither [round(-2550/90) = -28]
    nor the mean 0 of the weights clamped at zero. *)
Lemma aggregate_two_flows_counterexample :
  (weights (<[1 := 1000]> (<[2 := 2000]> ∅)) [blk 1 10 1100; blk 2 40 2050]
   = [100; 50]
   /\ snd (aggregate (<[1 := 1000]> (<[2 := 2000]> ∅))
                     [blk 1 10 1100; blk 2 40 2050]) = Some (20, 150)
   /\ ~ (exists packets,
           snd (aggregate (<[1 := 1000]> (<[2 := 2000]> ∅))
                          [blk 1 10 1100; blk 2 40 2050]) = Some (12, packets)))
  /\ (weights (<[1 := 0]> (<[2 := 100]> ∅)) [blk 1 0 100; blk 2 255 90]
      = [100; -10]
      /\ snd (aggregate (<[1 := 0]> (<[2 := 100]> ∅)) [blk 1 0 100; blk 2 255 90])
         = Some (229, 90)
      /\ round_half_up (-2550) 90 = -28).
Proof.
  split.
  - split; [vm_compute; reflexivity |].
    assert (H : snd (aggregate (<[1 := 1000]> (<[2 := 2000]> ∅))
                               [blk 1 10 1100; blk 2 40 2050]) = Some (20, 150))
      by (vm_compute; reflexivity).
    split; [exact H |].
    intros [packets Hp]. rewrite H in Hp. discriminate Hp.
  - repeat split; vm_compute; reflexivity.
Qed.

(** A weighted mean above 255 is only possible with a negative weight; the
    batch is then dropped. *)
Example aggregate_discarded_batch :
  snd (aggregate (<[1 := 0]> (<[2 := 100]> ∅)) [blk 1 255 100; blk 2 0 90])
  = None.
Proof. vm_compute. reflexivity. Qed.

Lemma fold_loop_body_zero (bs : list RTCPReportBlock) :
  forall st : LoopState,
    Forall (fun w => w = 0)
      (computed_weights (ssrc_to_last_received_extended_high_seq_num_ st) bs) ->
    fraction_lost_aggregate st = 0 ->
    total_number_of_packets st = 0 ->
    fraction_lost_aggregate (fold_left loop_body bs st) = 0
    /\ total_number_of_packets (fold_left loop_body bs st) = 0.
Proof.
  induction bs as [| b bs IH]; intros st Hws Hagg Htot; simpl; [auto |].
  simpl in Hws. inversion Hws as [| ? ? Hw Hws']; subst.
  apply IH.
  - exact Hws'.
  - unfold loop_body; simpl. rewrite Hw, Hagg. reflexivity.
  - unfold loop_body; simpl. rewrite Hw, Htot. reflexivity.
Qed.

Lemma aggregate_zero_weight (m : gmap Z Z) (bs : list RTCPReportBlock) :
  bs <> [] ->
  Forall (fun w => w = 0) (computed_weights m bs) ->
  aggregate m bs = (records_after m bs, Some (0, 0)).
Proof.
  intros Hne Hws.
  destruct (fold_loop_body_zero bs (loop_init m) Hws eq_refl eq_refl)
    as [Hagg Htot].
  pose proof (fold_loop_body_records bs (loop_init m)) as Hrec.
  destruct bs as [| b bs]; [congruence |].
  unfold aggregate, run_loop. rewrite Hagg, Htot, Hrec. reflexivity.
Qed.

(** ** Change detection *)

Section Controller.
Context {E R : Type} `{!BandwidthEstimation E} `{!RembSuppressor R}.
Import BitrateControllerImpl.

Local Abbreviation ctl := (t (E := E) (R := R)).

(** On typed values the unsigned subtraction of line 181 (and 205) does not
    wrap. *)
Lemma exposed_no_wrap (raw reserved engine_min : Z) :
  is_u32 raw -> is_u32 reserved ->
  Z.max (u32 (raw - Z.min raw reserved)) engine_min
  = exposed_formula raw reserved engine_min.
Proof.
  intros Hraw Hres. unfold exposed_formula, is_u32 in *.
  rewrite u32_small; [reflexivity | unfold is_u32; lia].
Qed.

Lemma changed_iff (a b c d a' b' c' d' : Z) :
  negb (a =? a') || negb (b =? b') || negb (c =? c') || negb (d' =? d) = false
  <-> (a, b, c, d) = (a', b', c', d').
Proof.
  destruct (Z.eqb_spec a a'), (Z.eqb_spec b b'), (Z.eqb_spec c c'),
    (Z.eqb_spec d' d); simpl; split; intros H; try discriminate H;
    try congruence; subst; reflexivity.
Qed.

Lemma MaybeTrigger_unchanged (c : ctl) :
  typed c -> snapshot c = notified c ->
  MaybeTriggerOnNetworkChanged c = (tt, c, []).
Proof.
  unfold typed, snapshot, notified, MaybeTriggerOnNetworkChanged, bind, get.
  destruct (CurrentEstimate (bandwidth_estimation_ c)) as [[raw fl] rtt].
  simpl. intros (Hraw & _ & Hres) Heq.
  rewrite exposed_no_wrap by assumption.
  apply changed_iff in Heq. rewrite Heq. reflexivity.
Qed.

Lemma MaybeTrigger_changed (c : ctl) :
  typed c -> snapshot c <> notified c ->
  MaybeTriggerOnNetworkChanged c
  = (tt,
     with_last_notified (fst (fst (fst (snapshot c))))
       (snd (fst (fst (snapshot c)))) (snd (fst (snapshot c))) c,
     [call_of (snapshot c)]).
Proof.
  unfold typed, snapshot, notified, MaybeTriggerOnNetworkChanged, bind, get.
  destruct (CurrentEstimate (bandwidth_estimation_ c)) as [[raw fl] rtt].
  simpl. intros (Hraw & _ & Hres) Hne.
  rewrite exposed_no_wrap by assumption.
  destruct (negb _ || _ || _ || _) eqn:Hcmp.
  - reflexivity.
  - apply changed_iff in Hcmp. contradiction.
Qed.

(** What [MaybeTriggerOnNetworkChanged] leaves behind, whichever branch it
    takes. *)
Lemma MaybeTrigger_post (c : ctl) :
  typed c ->
  let r := MaybeTriggerOnNetworkChanged c in
  notifies_iff_changed c (state_of r) (calls r)
  /\ snapshot (state_of r) = snapshot c
  /\ notified (state_of r) = snapshot c
  /\ bandwidth_estimation_ (state_of r) = bandwidth_estimation_ c
  /\ reserved_bitrate_bps_ (state_of r) = reserved_bitrate_bps_ c
  /\ remb_suppressor_ (state_of r) = remb_suppressor_ c
  /\ last_bitrate_update_ms_ (state_of r) = last_bitrate_update_ms_ c.
Proof.
  intros Hty r. subst r.
  destruct (decide (snapshot c = notified c)) as [Heq | Hne].
  - rewrite (MaybeTrigger_unchanged c Hty Heq). unfold state_of, calls; simpl.
    unfold notifies_iff_changed. repeat split; congruence.
  - rewrite (MaybeTrigger_changed c Hty Hne). unfold state_of, calls; simpl.
    unfold notifies_iff_changed.
    assert (Hsnap : snapshot
      (with_last_notified (fst (fst (fst (snapshot c))))
         (snd (fst (fst (snapshot c)))) (snd (fst (snapshot c))) c)
      = snapshot c) by reflexivity.
    rewrite Hsnap. repeat split; try congruence.
    unfold notified, snapshot; simpl.
    destruct (CurrentEstimate (bandwidth_estimation_ c)) as [[raw fl] rtt].
    reflexivity.
Qed.

(** ** The exposed bitrate and the point-in-time read *)

(** C7: both places that compute the exposed bitrate, the change detection of
    [MaybeTriggerOnNetworkChanged] (whose value is stored in
    [last_bitrate_bps_] and handed to the observer) and [AvailableBandwidth],
    produce [max(raw - min(raw, reserved), engine_min)], which is never below
    the engine's minimum. *)
Theorem exposed_bitrate_is_reserved_adjusted_and_floored (c : ctl) :
  typed c ->
  let raw := fst (fst (CurrentEstimate (bandwidth_estimation_ c))) in
  let exposed :=
    exposed_formula raw (reserved_bitrate_bps_ c)
      (GetMinBitrate (bandwidth_estimation_ c)) in
  let r := MaybeTriggerOnNetworkChanged c in
  last_bitrate_bps_ (state_of r) = exposed
  /\ Forall (fun call => call_bitrate call = exposed) (calls r)
  /\ (raw <> 0 -> result (AvailableBandwidth c) = Some exposed)
  /\ GetMinBitrate (bandwidth_estimation_ c) <= exposed.
Proof.
  intros Hty raw exposed r.
  destruct (MaybeTrigger_post c Hty) as (_ & _ & Hnot & _).
  fold r in Hnot.
  assert (Hfst : fst (fst (fst (snapshot c))) = exposed).
  { unfold snapshot, exposed, raw.
    destruct (CurrentEstimate (bandwidth_estimation_ c)) as [[b fl] rtt].
    reflexivity. }
  split; [| split; [| split]].
  - rewrite <- Hfst, <- Hnot. reflexivity.
  - subst r. destruct (decide (snapshot c = notified c)) as [Heq | Hne].
    + rewrite (MaybeTrigger_unchanged c Hty Heq). constructor.
    + rewrite (MaybeTrigger_changed c Hty Hne). unfold calls; simpl.
      constructor; [| constructor]. rewrite <- Hfst.
      unfold call_of. destruct (snapshot c) as [[[b fl] rtt] res]. reflexivity.
  - intros Hraw. unfold AvailableBandwidth, bind, get, result.
    destruct Hty as (Hr & _ & Hres). subst exposed raw.
    destruct (CurrentEstimate (bandwidth_estimation_ c)) as [[b fl] rtt].
    simpl in *. destruct (Z.eqb_spec b 0) as [-> | _]; [contradiction |].
    simpl. rewrite exposed_no_wrap by assumption. reflexivity.
  - subst exposed. unfold exposed_formula. lia.
Qed.

(** C8: [AvailableBandwidth] answers "none" exactly when the engine's current
    bitrate is zero, otherwise the reserved-adjusted, minimum-floored bitrate;
    either way the state is the one it was called in and the observer is not
    invoked. *)
Theorem available_bandwidth_is_a_pure_read (c : ctl) :
  typed c ->
  let raw := fst (fst (CurrentEstimate (bandwidth_estimation_ c))) in
  let r := AvailableBandwidth c in
  (result r = None <-> raw = 0)
  /\ (raw <> 0 ->
      result r = Some (exposed_formula raw (reserved_bitrate_bps_ c)
                         (GetMinBitrate (bandwidth_estimation_ c))))
  /\ state_of r = c
  /\ calls r = [].
Proof.
  intros (Hr & _ & Hres) raw r. subst raw r.
  unfold AvailableBandwidth, bind, get, result, state_of, calls.
  destruct (CurrentEstimate (bandwidth_estimation_ c)) as [[b fl] rtt].
  simpl in *. destruct (Z.eqb_spec b 0) as [-> | Hb]; simpl.
  - repeat split; congruence.
  - rewrite exposed_no_wrap by assumption.
    repeat split; congruence.
Qed.

(** ** The periodic tick *)

Lemma process_early_noop (c : ctl) (now now2 now3 : Z) :
  result (TimeUntilNextProcess now c) > 0 ->
  Process now now2 now3 c = (0, c, []).
Proof.
  unfold Process, bind. intros Hpos.
  destruct (TimeUntilNextProcess now c) as [[until c1] out] eqn:Ht.
  assert (Hc : c1 = c /\ out = []).
  { unfold TimeUntilNextProcess, bind, get, ret in Ht. simpl in Ht.
    inversion Ht; subst. split; reflexivity. }
  destruct Hc as [-> ->]. unfold result in Hpos; simpl in Hpos.
  destruct (Z.gtb_spec until 0) as [_ | Hle]; [reflexivity | lia].
Qed.

(** C9: when [TimeUntilNextProcess] answers a positive value, [Process],
    reading the same clock value, returns 0 at once: same state, no observer
    call. *)
Theorem process_before_due_is_noop (c : ctl) (now now2 now3 : Z) :
  result (TimeUntilNextProcess now c) > 0 ->
  result (Process now now2 now3 c) = 0
  /\ state_of (Process now now2 now3 c) = c
  /\ calls (Process now now2 now3 c) = [].
Proof.
  intros Hpos. rewrite (process_early_noop c now now2 now3 Hpos).
  repeat split.
Qed.

(** ** Suppressed receiver estimates *)

Lemma suppressed_estimate_state (c : ctl) (clock bitrate : Z) :
  fst (SuppresNewRemb clock bitrate (remb_suppressor_ c)) = true ->
  OnReceivedEstimatedBitrate clock bitrate c
  = (tt,
     with_suppressor (snd (SuppresNewRemb clock bitrate (remb_suppressor_ c))) c,
     []).
Proof.
  intros Hs. unfold OnReceivedEstimatedBitrate, bind, get.
  destruct (SuppresNewRemb clock bitrate (remb_suppressor_ c)) as [s r'].
  simpl in Hs. subst s. reflexivity.
Qed.

Lemma suppressed_estimate_calls (c : ctl) (clock bitrate : Z) :
  fst (SuppresNewRemb clock bitrate (remb_suppressor_ c)) = true ->
  calls (OnReceivedEstimatedBitrate clock bitrate c) = [].
Proof. intros Hs. rewrite (suppressed_estimate_state c clock bitrate Hs). reflexivity. Qed.

(** C10: when the suppressor answers "suppress", [OnReceivedEstimatedBitrate]
    only installs the suppressor's own new state: the engine is not updated
    and the observer is not invoked. *)
Theorem suppressed_estimate_touches_only_suppressor (c : ctl) (clock bitrate : Z) :
  fst (SuppresNewRemb clock bitrate (remb_suppressor_ c)) = true ->
  let r := OnReceivedEstimatedBitrate clock bitrate c in
  state_of r
  = with_suppressor (snd (SuppresNewRemb clock bitrate (remb_suppressor_ c))) c
  /\ bandwidth_estimation_ (state_of r) = bandwidth_estimation_ c
  /\ notified (state_of r) = notified c
  /\ calls r = [].
Proof.
  intros Hs r. subst r. rewrite (suppressed_estimate_state c clock bitrate Hs).
  repeat split.
Qed.
End Controller.

(** ** Which events notify *)

Section ControllerEvents.
Context {E R : Type} `{!BandwidthEstimation E} `{!RembSuppressor R}.
Import BitrateControllerImpl Events.

Local Abbreviation ctl := (t (E := E) (R := R)).

(** [MaybeTriggerOnNetworkChanged] writes the four [last_] members only. *)
Lemma MaybeTrigger_frame (c : ctl) :
  let r := MaybeTriggerOnNetworkChanged c in
  bandwidth_estimation_ (state_of r) = bandwidth_estimation_ c
  /\ reserved_bitrate_bps_ (state_of r) = reserved_bitrate_bps_ c
  /\ remb_suppressor_ (state_of r) = remb_suppressor_ c
  /\ last_bitrate_update_ms_ (state_of r) = last_bitrate_update_ms_ c.
Proof.
  unfold MaybeTriggerOnNetworkChanged, bind, get, state_of.
  destruct (CurrentEstimate (bandwidth_estimation_ c)) as [[b fl] rtt].
  simpl. destruct (negb _ || _ || _ || _); simpl; auto.
Qed.

Lemma typed_frame (c1 c2 : ctl) :
  bandwidth_estimation_ c1 = bandwidth_estimation_ c2 ->
  reserved_bitrate_bps_ c1 = reserved_bitrate_bps_ c2 ->
  typed c1 -> typed c2.
Proof. unfold typed. intros <- <-. auto. Qed.

(** Change detection run in a state [c1] that still carries the notified
    tuple of [c0], followed by a step [g] that touches neither the engine,
    nor the reserved bitrate, nor the [last_] members. *)
Lemma trigger_after_mutation (c0 c1 : ctl) (g : ctl -> ctl) :
  notified c1 = notified c0 ->
  (forall x, bandwidth_estimation_ (g x) = bandwidth_estimation_ x
             /\ reserved_bitrate_bps_ (g x) = reserved_bitrate_bps_ x) ->
  let r := MaybeTriggerOnNetworkChanged c1 in
  typed (g (state_of r)) ->
  notifies_iff_changed c0 (g (state_of r)) (calls r).
Proof.
  intros Hnot Hg r Hty.
  destruct (MaybeTrigger_frame c1) as (He & Hres & _). fold r in He, Hres.
  destruct (Hg (state_of r)) as [Hge Hgr].
  assert (Hty1 : typed c1).
  { apply (typed_frame (g (state_of r))); [congruence | congruence | exact Hty]. }
  destruct (MaybeTrigger_post c1 Hty1) as ((Hch & Hun) & Hsnap & _).
  fold r in Hch, Hun, Hsnap.
  assert (Hsg : snapshot (g (state_of r)) = snapshot (state_of r)).
  { unfold snapshot. rewrite Hge, Hgr. reflexivity. }
  unfold notifies_iff_changed. rewrite Hsg, <- Hnot. split; assumption.
Qed.

Lemma estimate_passed_notifies (c : ctl) (clock bitrate : Z) :
  fst (SuppresNewRemb clock bitrate (remb_suppressor_ c)) = false ->
  typed (state_of (OnReceivedEstimatedBitrate clock bitrate c)) ->
  notifies_iff_changed c (state_of (OnReceivedEstimatedBitrate clock bitrate c))
    (calls (OnReceivedEstimatedBitrate clock bitrate c)).
Proof.
  unfold OnReceivedEstimatedBitrate, bind, get.
  destruct (SuppresNewRemb clock bitrate (remb_suppressor_ c)) as [s r'].
  simpl. intros ->. simpl.
  set (c1 := with_engine (UpdateReceiverEstimate bitrate) (with_suppressor r' c)).
  pose proof (trigger_after_mutation c c1 (fun x => x) eq_refl
                (fun x => conj eq_refl eq_refl)) as H.
  destruct (MaybeTriggerOnNetworkChanged c1) as [[u c2] out].
  exact H.
Qed.

Lemma report_notifies (c : ctl) (fl rtt n now : Z) :
  typed (state_of (OnReceivedRtcpReceiverReport fl rtt n now c)) ->
  notifies_iff_changed c (state_of (OnReceivedRtcpReceiverReport fl rtt n now c))
    (calls (OnReceivedRtcpReceiverReport fl rtt n now c)).
Proof.
  unfold OnReceivedRtcpReceiverReport, bind, modify.
  set (c1 := with_engine (UpdateReceiverBlock fl rtt n now) c).
  pose proof (trigger_after_mutation c c1 (fun x => x) eq_refl
                (fun x => conj eq_refl eq_refl)) as H.
  destruct (MaybeTriggerOnNetworkChanged c1) as [[u c2] out].
  exact H.
Qed.

Lemma tick_due_notifies (c : ctl) (now1 now2 now3 : Z) :
  result (TimeUntilNextProcess now1 c) <= 0 ->
  typed (state_of (Process now1 now2 now3 c)) ->
  notifies_iff_changed c (state_of (Process now1 now2 now3 c))
    (calls (Process now1 now2 now3 c)).
Proof.
  unfold Process, bind. intros Hdue.
  destruct (TimeUntilNextProcess now1 c) as [[until c0] out0] eqn:Ht.
  assert (Hc : c0 = c /\ out0 = []).
  { unfold TimeUntilNextProcess, bind, get, ret in Ht. simpl in Ht.
    inversion Ht; subst. split; reflexivity. }
  destruct Hc as [-> ->]. unfold result in Hdue; simpl in Hdue.
  destruct (Z.gtb_spec until 0) as [Hgt | _]; [lia |].
  unfold modify.
  set (c1 := with_engine (UpdateEstimate now2) c).
  pose proof (trigger_after_mutation c c1 (with_last_update now3) eq_refl
                (fun x => conj eq_refl eq_refl)) as H.
  destruct (MaybeTriggerOnNetworkChanged c1) as [[u c2] out].
  unfold state_of, calls in *; simpl in *. rewrite !app_nil_r. exact H.
Qed.

Lemma reserved_change_notifies (c : ctl) (reserved : Z) :
  typed (state_of (SetReservedBitrate reserved c)) ->
  notifies_iff_changed c (state_of (SetReservedBitrate reserved c))
    (calls (SetReservedBitrate reserved c)).
Proof.
  unfold SetReservedBitrate, bind, modify.
  set (c1 := with_reserved reserved c).
  pose proof (trigger_after_mutation c c1 (fun x => x) eq_refl
                (fun x => conj eq_refl eq_refl)) as H.
  destruct (MaybeTriggerOnNetworkChanged c1) as [[u c2] out].
  exact H.
Qed.

Lemma then_ret {A B : Type} (m : M (E := E) (R := R) A) (b : B) (c : ctl) :
  state_of (bind m (fun _ => ret b) c) = state_of (m c)
  /\ calls (bind m (fun _ => ret b) c) = calls (m c).
Proof.
  unfold bind, ret, state_of, calls.
  destruct (m c) as [[a c1] out]. simpl. rewrite app_nil_r. auto.
Qed.

(** C3, as the code has it: an event notifies exactly once when the snapshot
    differs from the notified tuple, and not at all when it is the same,
    provided its path ends in [MaybeTriggerOnNetworkChanged]: a receiver
    estimate the suppressor lets through, a report batch that is forwarded
    (non-empty, aggregate at most 255), a tick that is due, a reserved-bitrate
    change.  Every other event (a suppressed estimate, an empty or discarded
    batch, an early tick, the remaining setters) performs no observer call,
    whatever the snapshot. *)
Theorem event_notifies_iff_change_detection_reached (c : ctl) (ev : Event) :
  typed (state_of (step ev c)) ->
  if reaches_change_detection c ev
  then notifies_iff_changed c (state_of (step ev c)) (calls (step ev c))
  else calls (step ev c) = [].
Proof.
  destruct ev as [clock bitrate | m bs rtt now | now1 now2 now3 | res
                 | b | lo hi | clock b | clock mode]; simpl;
    try reflexivity.
  - (* receiver estimate *)
    unfold RtcpBandwidthObserverImpl.OnReceivedEstimatedBitrate.
    destruct (fst (SuppresNewRemb clock bitrate (remb_suppressor_ c))) eqn:Hs;
      simpl.
    + intros _.
      apply (suppressed_estimate_calls c clock bitrate Hs).
    + apply estimate_passed_notifies. exact Hs.
  - (* receiver report *)
    destruct (then_ret
      (RtcpBandwidthObserverImpl.OnReceivedRtcpReceiverReport m bs rtt now) tt c)
      as [-> ->].
    unfold RtcpBandwidthObserverImpl.OnReceivedRtcpReceiverReport.
    destruct (aggregate m bs) as [m' [[fl n] |]]; simpl; [| reflexivity].
    destruct (then_ret (OnReceivedRtcpReceiverReport fl rtt n now) m' c)
      as [-> ->].
    apply report_notifies.
  - (* tick *)
    destruct (then_ret (Process now1 now2 now3) tt c) as [-> ->].
    destruct (Z.gtb_spec (result (TimeUntilNextProcess now1 c)) 0)
      as [Hearly | Hdue]; simpl.
    + intros _. apply Z.lt_gt in Hearly.
      rewrite (process_early_noop c now1 now2 now3 Hearly). reflexivity.
    + apply tick_due_notifies. exact Hdue.
  - (* reserved bitrate *)
    apply reserved_change_notifies.
Qed.

(** C4, as the code has it: of the five setters only [SetReservedBitrate]
    mutates and then runs the change detection; [SetStartBitrate],
    [SetMinMaxBitrate], [SetBitrateSent] and [SetCodecMode] only hand the new
    value to the engine or to the suppressor: no snapshot is computed, the
    notified tuple stays as it was and the observer is not invoked. *)
Theorem setters_two_phase_only_for_reserved_bitrate (c : ctl) :
  (forall reserved,
      typed (state_of (SetReservedBitrate reserved c)) ->
      notifies_iff_changed c (state_of (SetReservedBitrate reserved c))
        (calls (SetReservedBitrate reserved c)))
  /\ (forall b,
        SetStartBitrate b c = (tt, with_engine (SetSendBitrate b) c, []))
  /\ (forall lo hi,
        BitrateControllerImpl.SetMinMaxBitrate lo hi c
        = (tt, with_engine (Bwe.SetMinMaxBitrate lo hi) c, []))
  /\ (forall clock b,
        BitrateControllerImpl.SetBitrateSent clock b c
        = (tt,
           with_suppressor (Remb.SetBitrateSent clock b (remb_suppressor_ c)) c,
           []))
  /\ (forall clock mode,
        SetCodecMode clock mode c
        = (tt,
           with_suppressor
             (SetEnabled clock (is_screensharing mode) (remb_suppressor_ c)) c,
           []))
  /\ (forall ev,
        match ev with
        | StartBitrateChange _ | MinMaxChange _ _
        | BitrateSentChange _ _ | CodecModeChange _ _ =>
            calls (step ev c) = []
            /\ notified (state_of (step ev c)) = notified c
        | _ => True
        end).
Proof.
  split; [| repeat split; try reflexivity].
  - intros reserved Hty.
    exact (reserved_change_notifies c reserved Hty).
  - destruct ev; simpl; auto.
Qed.
End ControllerEvents.

(** ** The claims on the concrete controller *)

Section OnScenario.
Import BitrateControllerImpl Events Scenario.

Local Existing Instance engine.
Local Existing Instance suppressor.

Ltac typed_by_computation :=
  unfold typed, is_u32; vm_compute; repeat split; discriminate.

Lemma event_notifies_witness :
  typed (state_of (Scenario.step (ReservedChange 100000) configured))
  /\ notifies_iff_changed configured
       (state_of (Scenario.step (ReservedChange 100000) configured))
       (calls (Scenario.step (ReservedChange 100000) configured)).
Proof.
  assert (Hty : typed (state_of (Scenario.step (ReservedChange 100000) configured)))
    by typed_by_computation.
  split; [exact Hty |].
  exact (event_notifies_iff_change_detection_reached configured
           (ReservedChange 100000) Hty).
Defined.

Example reserved_change_calls :
  calls (Scenario.step (ReservedChange 100000) configured)
  = [{| call_bitrate := 400000; call_fraction_loss := 0; call_rtt := 0 |}].
Proof. vm_compute. reflexivity. Qed.

(** C3, as stated, fails on the paths that return before the change
    detection.  After [SetStartBitrate(500000)] the snapshot is
    (500000, 0, 0, 0) while the notified tuple is still (0, 0, 0, 0); an empty
    report batch, a tick 10 ms after construction, and (in screen-sharing
    mode, 200000 bps last sent) the suppressed estimate 210000 are each
    processed without any observer call. *)
Lemma event_without_notification_counterexample :
  ~ notifies_iff_changed started
      (state_of (Scenario.step (ReportArrival ∅ [] 0 0) started))
      (calls (Scenario.step (ReportArrival ∅ [] 0 0) started))
  /\ ~ notifies_iff_changed started
        (state_of (Scenario.step (Tick 10 10 10) started))
        (calls (Scenario.step (Tick 10 10 10) started))
  /\ ~ notifies_iff_changed screensharing
        (state_of (Scenario.step (EstimateArrival 0 210000) screensharing))
        (calls (Scenario.step (EstimateArrival 0 210000) screensharing)).
Proof.
  unfold notifies_iff_changed.
  repeat split; intros [Hch _];
    (assert (Hcalls : @nil OnNetworkChanged
                      = [{| call_bitrate := 500000; call_fraction_loss := 0;
                            call_rtt := 0 |}])
       by (apply Hch; vm_compute; discriminate));
    discriminate Hcalls.
Qed.

Lemma setters_witness :
  typed (state_of (SetReservedBitrate 100000 configured))
  /\ notifies_iff_changed configured
       (state_of (SetReservedBitrate 100000 configured))
       (calls (SetReservedBitrate 100000 configured))
  /\ calls (SetStartBitrate 500000 fresh) = [].
Proof.
  assert (Hty : typed (state_of (SetReservedBitrate 100000 configured)))
    by typed_by_computation.
  destruct (setters_two_phase_only_for_reserved_bitrate configured)
    as (Hres & _).
  destruct (setters_two_phase_only_for_reserved_bitrate fresh)
    as (_ & Hstart & _).
  split; [exact Hty | split].
  - exact (Hres 100000 Hty).
  - rewrite Hstart. reflexivity.
Defined.

(** C4, as stated, fails: [SetStartBitrate(500000)] on the fresh controller
    changes the snapshot from (0, 0, 0, 0) to (500000, 0, 0, 0) and the
    observer is not invoked; the same holds for [SetMinMaxBitrate], whose new
    minimum becomes the exposed bitrate. *)
Lemma setter_without_notification_counterexample :
  ~ notifies_iff_changed fresh
      (state_of (SetStartBitrate 500000 fresh))
      (calls (SetStartBitrate 500000 fresh))
  /\ ~ notifies_iff_changed fresh
        (state_of (BitrateControllerImpl.SetMinMaxBitrate 50000 2000000 fresh))
        (calls (BitrateControllerImpl.SetMinMaxBitrate 50000 2000000 fresh)).
Proof.
  unfold notifies_iff_changed.
  split; intros [Hch _].
  - assert (Hcalls : @nil OnNetworkChanged
                     = [{| call_bitrate := 500000; call_fraction_loss := 0;
                           call_rtt := 0 |}])
      by (apply Hch; vm_compute; discriminate).
    discriminate Hcalls.
  - assert (Hcalls : @nil OnNetworkChanged
                     = [{| call_bitrate := 50000; call_fraction_loss := 0;
                           call_rtt := 0 |}])
      by (apply Hch; vm_compute; discriminate).
    discriminate Hcalls.
Qed.

Lemma exposed_bitrate_witness :
  typed (with_reserved 480000 configured)
  /\ result (AvailableBandwidth (with_reserved 480000 configured)) = Some 50000
  /\ last_bitrate_bps_
       (state_of (MaybeTriggerOnNetworkChanged (with_reserved 480000 configured)))
     = 50000.
Proof.
  assert (Hty : typed (with_reserved 480000 configured))
    by typed_by_computation.
  destruct (exposed_bitrate_is_reserved_adjusted_and_floored
              (with_reserved 480000 configured) Hty) as (Hlast & _ & Hav & _).
  split; [exact Hty | split].
  - rewrite Hav; [vm_compute; reflexivity | vm_compute; discriminate].
  - rewrite Hlast. vm_compute. reflexivity.
Defined.

Lemma available_bandwidth_witness :
  typed configured
  /\ result (AvailableBandwidth configured) = Some 500000
  /\ state_of (AvailableBandwidth configured) = configured
  /\ (result (AvailableBandwidth fresh) = None).
Proof.
  assert (Hty : typed configured) by typed_by_computation.
  assert (Hty0 : typed fresh) by typed_by_computation.
  destruct (available_bandwidth_is_a_pure_read configured Hty)
    as (_ & Hsome & Hst & _).
  destruct (available_bandwidth_is_a_pure_read fresh Hty0) as (Hnone & _).
  split; [exact Hty | split; [| split]].
  - rewrite Hsome; [vm_compute; reflexivity | vm_compute; discriminate].
  - exact Hst.
  - apply Hnone. vm_compute. reflexivity.
Defined.

Lemma process_before_due_witness :
  result (TimeUntilNextProcess 10 started) = 15
  /\ state_of (Process 10 11 12 started) = started
  /\ calls (Process 10 11 12 started) = [].
Proof.
  split; [vm_compute; reflexivity |].
  destruct (process_before_due_is_noop started 10 11 12) as (_ & Hst & Hc).
  - vm_compute. reflexivity.
  - split; assumption.
Defined.

(** Once the clock has moved past the interval the same call does run the
    update: the statement above is about the reading [Process] itself takes. *)
Example process_when_due :
  result (TimeUntilNextProcess 30 started) = 0
  /\ calls (Process 30 30 30 started)
     = [{| call_bitrate := 500000; call_fraction_loss := 0; call_rtt := 0 |}]
  /\ last_bitrate_update_ms_ (state_of (Process 30 30 30 started)) = 30.
Proof. repeat split; vm_compute; reflexivity. Qed.

Lemma suppressed_estimate_witness :
  fst (SuppresNewRemb 0 210000 (remb_suppressor_ screensharing)) = true
  /\ bandwidth_estimation_ (state_of (OnReceivedEstimatedBitrate 0 210000 screensharing))
     = bandwidth_estimation_ screensharing
  /\ calls (OnReceivedEstimatedBitrate 0 210000 screensharing) = [].
Proof.
  assert (Hs : fst (SuppresNewRemb 0 210000 (remb_suppressor_ screensharing)) = true)
    by (vm_compute; reflexivity).
  destruct (suppressed_estimate_touches_only_suppressor screensharing 0 210000 Hs)
    as (_ & He & _ & Hc).
  split; [exact Hs | split; assumption].
Defined.

(** A decrease is passed on to the engine and notified. *)
Example estimate_decrease_passes :
  calls (OnReceivedEstimatedBitrate 0 100000 screensharing)
  = [{| call_bitrate := 100000; call_fraction_loss := 0; call_rtt := 0 |}].
Proof. vm_compute. reflexivity. Qed.
End OnScenario.

(** ** Boundedness of the engine *)

Section EngineBounds.
Import Engine.
Variable tu : Tuning.







End EngineBounds.

Section EngineScenario.
Import Engine.



(** After a change of bounds the next update that computes a bitrate brings
    it back inside them. *)
Example bounds_change_settles_at_next_report :
  current_estimate
    (run sample_tuning initial
       [set_min_max_bitrate_ 50000 2000000; set_send_bitrate_ 500000;
        set_min_max_bitrate_ 600000 2000000;
        update_receiver_block_ 10 50 100 1000])
  = (600000, 10, 50).
Proof. vm_compute. reflexivity. Qed.

(** A heavy-loss report cuts the bitrate, within the bounds. *)
Example heavy_loss_cuts :
  current_estimate
    (run sample_tuning initial
       [set_min_max_bitrate_ 50000 2000000; set_send_bitrate_ 800000;
        update_receiver_block_ 250 50 100 1000])
  = (409375, 250, 50).
Proof. vm_compute. reflexivity. Qed.
End EngineScenario.

(** ** Uninformative report batches *)

Section ZeroInformation.
Context (tu : Engine.Tuning) {R : Type} `{!RembSuppressor R}.
Import BitrateControllerImpl AggregationRule.

Local Abbreviation ctl := (t (E := Engine.EstimationState) (R := R)).
Local Abbreviation report :=
  (@RtcpBandwidthObserverImpl.OnReceivedRtcpReceiverReport
     Engine.EstimationState R (Engine.spec_engine tu)).
Local Abbreviation forward :=
  (@OnReceivedRtcpReceiverReport
     Engine.EstimationState R (Engine.spec_engine tu)).

(** The engine ignores a sample without packets. *)
Lemma engine_ignores_zero_packets
    (fraction_loss rtt now : Z) (s : Engine.EstimationState) :
  Engine.update_receiver_block tu fraction_loss rtt 0 now s = s.
Proof. reflexivity. Qed.

(** C6, as the code has it: an empty batch returns at once, nothing is
    forwarded and nothing changes; a non-empty batch in which every computed
    weight is zero is forwarded as [(fraction_loss, packets) = (0, 0)], the
    per-SSRC records are updated, and the engine (as modelled from its
    contract) is left as it was. *)
Theorem uninformative_batch (m : gmap Z Z) (bs : list RTCPReportBlock)
    (rtt now : Z) (c : ctl) :
  (bs = [] ->
     aggregate m bs = (m, None) /\ report m bs rtt now c = (m, c, []))
  /\ (bs <> [] ->
      Forall (fun w => w = 0) (computed_weights m bs) ->
      aggregate m bs = (records_after m bs, Some (0, 0))
      /\ report m bs rtt now c
         = bind (forward 0 rtt 0 now) (fun _ => ret (records_after m bs)) c
      /\ bandwidth_estimation_ (state_of (report m bs rtt now c))
         = bandwidth_estimation_ c).
Proof.
  split.
  - intros ->. split; reflexivity.
  - intros Hne Hws.
    pose proof (aggregate_zero_weight m bs Hne Hws) as Hagg.
    split; [exact Hagg |].
    unfold RtcpBandwidthObserverImpl.OnReceivedRtcpReceiverReport.
    rewrite Hagg. split; [reflexivity |].
    destruct (then_ret (forward 0 rtt 0 now) (records_after m bs) c) as [-> _].
    unfold OnReceivedRtcpReceiverReport, bind, modify.
    set (c1 := with_engine _ c).
    destruct (MaybeTrigger_frame (BandwidthEstimation0 := Engine.spec_engine tu) c1)
      as (He & _).
    unfold state_of in *.
    destruct (MaybeTriggerOnNetworkChanged c1) as [[u c2] out].
    simpl in *. rewrite He. reflexivity.
Qed.
End ZeroInformation.

Section ZeroInformationScenario.
Import BitrateControllerImpl Events Scenario AggregationRule.

(** The very first report for a flow has no record to compare with: weight
    zero, forwarded as (0, 0), and the record is created. *)
Example first_report_is_zero_information :
  computed_weights ∅ [blk 7 30 4000] = [0]
  /\ aggregate ∅ [blk 7 30 4000] = (<[7 := 4000]> ∅, Some (0, 0)).
Proof. split; vm_compute; reflexivity. Qed.

(** C6, as stated, fails for the empty batch: it is not forwarded at all.
    The difference shows after [SetStartBitrate(500000)]: the empty batch
    produces no observer call, whereas a forwarded zero-information update
    runs the change detection and notifies the new bitrate. *)
Lemma empty_batch_counterexample :
  snd (aggregate ∅ []) <> Some (0, 0)
  /\ calls (Scenario.step (ReportArrival ∅ [] 0 0) started) = []
  /\ calls (@OnReceivedRtcpReceiverReport _ _ engine 0 0 0 0 started)
     = [{| call_bitrate := 500000; call_fraction_loss := 0; call_rtt := 0 |}].
Proof.
  split; [simpl; discriminate |].
  split; vm_compute; reflexivity.
Qed.
End ZeroInformationScenario.

Section ZeroInformationWitness.
Import BitrateControllerImpl Events Scenario AggregationRule.

Lemma uninformative_batch_witness :
  aggregate ∅ [blk 7 30 4000] = (<[7 := 4000]> ∅, Some (0, 0))
  /\ bandwidth_estimation_
       (state_of
          (@RtcpBandwidthObserverImpl.OnReceivedRtcpReceiverReport
             _ _ engine ∅ [blk 7 30 4000] 40 1000 configured))
     = bandwidth_estimation_ configured
  /\ @RtcpBandwidthObserverImpl.OnReceivedRtcpReceiverReport
       _ _ engine ∅ [] 40 1000 configured = (∅, configured, []).
Proof.
  destruct (uninformative_batch Engine.sample_tuning ∅ [blk 7 30 4000] 40 1000
              configured) as [_ Hzero].
  destruct (uninformative_batch Engine.sample_tuning ∅ [] 40 1000 configured)
    as [Hempty _].
  destruct Hzero as (Hagg & _ & Heng).
  - discriminate.
  - repeat constructor.
  - destruct (Hempty eq_refl) as [_ Hrep].
    split; [exact Hagg | split; [exact Heng | exact Hrep]].
Defined.
End ZeroInformationWitness.

(** * Further properties of the aggregation loop *)

Section AggregatorRecords.
Import AggregationRule Records.

Lemma aggregate_records (m : gmap Z Z) (bs : list RTCPReportBlock) :
  fst (aggregate m bs) = records_after m bs.
Proof.
  destruct bs as [| b bs]; [reflexivity |].
  unfold aggregate.
  pose proof (fold_loop_body_records (b :: bs) (loop_init m)) as Hrec.
  fold (run_loop m (b :: bs)) in Hrec.
  destruct (weighted_average _ _ >? 255); exact Hrec.
Qed.

Lemma records_after_lookup (bs : list RTCPReportBlock) :
  forall (m : gmap Z Z) (ssrc : Z),
    records_after m bs !! ssrc
    = match last_reported ssrc bs with
      | Some e => Some e
      | None => m !! ssrc
      end.
Proof.
  induction bs as [| b bs IH]; intros m ssrc; simpl; [reflexivity |].
  rewrite IH. destruct (last_reported ssrc bs) as [e |]; [reflexivity |].
  case_decide as Hs.
  - subst ssrc. apply lookup_insert_eq.
  - apply lookup_insert_ne. exact Hs.
Qed.

(** X1: after a batch has been processed, forwarded or dropped at the
    [> 255] check alike, the record of every SSRC named in the batch is the
    [extendedHighSeqNum] of the last block naming it, and the record of
    every other SSRC is what it was. *)
Theorem records_hold_last_block_of_each_ssrc
    (m : gmap Z Z) (bs : list RTCPReportBlock) (ssrc : Z) :
  fst (aggregate m bs) !! ssrc
  = match last_reported ssrc bs with
    | Some e => Some e
    | None => m !! ssrc
    end.
Proof. rewrite aggregate_records. apply records_after_lookup. Qed.

Lemma last_reported_is_Some (ssrc : Z) (bs : list RTCPReportBlock) :
  is_Some (last_reported ssrc bs) <-> ssrc ∈ (sourceSSRC <$> bs).
Proof.
  induction bs as [| b bs IH]; simpl.
  - split; [intros [e He]; discriminate | intros H; inversion H].
  - rewrite elem_of_cons, <- IH.
    destruct (last_reported ssrc bs) as [e |].
    + split; eauto.
    + case_decide as Hs; split.
      * intros _. left. congruence.
      * eauto.
      * intros [e He]; discriminate.
      * intros [Heq | [e He]]; [congruence | discriminate].
Qed.

(** X2: records are only ever added or overwritten, never removed: the SSRCs
    with a record after a batch are those that had one before together with
    those named in the batch. *)
Theorem records_are_never_evicted (m : gmap Z Z) (bs : list RTCPReportBlock) :
  dom (fst (aggregate m bs)) = dom m ∪ list_to_set (sourceSSRC <$> bs).
Proof.
  apply set_eq. intros ssrc.
  rewrite elem_of_dom, aggregate_records, records_after_lookup.
  rewrite elem_of_union, elem_of_dom, elem_of_list_to_set.
  rewrite <- last_reported_is_Some.
  destruct (last_reported ssrc bs) as [e |]; split; eauto.
  - intros [H | [e He]]; [exact H | discriminate].
Qed.
End AggregatorRecords.

Section AggregatorValues.
Import AggregationRule.

(** The value forwarded for a batch without regressed watermarks and without
    [int] overflow, whatever its total weight. *)
Lemma aggregate_value (m : gmap Z Z) (bs : list RTCPReportBlock) :
  bs <> [] ->
  Forall (fun b => is_u8 (fractionLost b)) bs ->
  Forall (fun w => 0 <= w) (weights m bs) ->
  sum (weights m bs) < 2 ^ 31 ->
  weighted_loss (weights m bs) bs + sum (weights m bs) / 2 < 2 ^ 31 ->
  snd (aggregate m bs)
  = Some (if sum (weights m bs) =? 0 then 0
          else round_half_up (weighted_loss (weights m bs) bs)
                 (sum (weights m bs)),
          sum (weights m bs)).
Proof.
  intros Hne Hfl Hws Htot Hagg.
  pose proof (weighted_loss_nonneg _ _ Hws Hfl) as Hwl.
  pose proof (weighted_loss_le _ _ Hws Hfl) as Hle.
  pose proof (sum_nonneg _ Hws) as Hsum.
  assert (Hhalf : 0 <= sum (weights m bs) / 2) by (apply Z.div_pos; lia).
  assert (Hrun : run_loop m bs
    = {| ssrc_to_last_received_extended_high_seq_num_ := records_after m bs;
         fraction_lost_aggregate := weighted_loss (weights m bs) bs;
         total_number_of_packets := sum (weights m bs) |}).
  { unfold run_loop. rewrite fold_loop_body_exact; simpl; try assumption; try lia.
    reflexivity. }
  destruct bs as [| b bs]; [congruence |].
  unfold aggregate. rewrite Hrun.
  cbn [ssrc_to_last_received_extended_high_seq_num_
         fraction_lost_aggregate total_number_of_packets].
  set (n := weighted_loss (weights m (b :: bs)) (b :: bs)) in *.
  set (d := sum (weights m (b :: bs))) in *.
  unfold weighted_average.
  destruct (Z.eqb_spec d 0) as [Hd | Hd]; [reflexivity |].
  assert (Hpos : 0 < d) by lia.
  pose proof (round_half_up_nearest n d Hpos) as Hnear.
  assert (Hr : 0 <= round_half_up n d <= 255) by nia.
  rewrite (Z.quot_div_nonneg d 2) by lia.
  rewrite (s32_small (n + d / 2)) by (unfold is_s32; lia).
  rewrite <- (Z.quot_div_nonneg d 2) by lia.
  rewrite quot_is_round_half_up by lia.
  rewrite (s32_small (round_half_up n d)) by (unfold is_s32; lia).
  destruct (Z.gtb_spec (round_half_up n d) 255) as [Hgt | _]; [lia |].
  cbn [snd]. rewrite u8_small by (unfold is_u8; lia). reflexivity.
Qed.

(** X3: the [> 255] check of lines 68-69 never fires on a batch whose sequence
    numbers did not regress and whose sums fit in [int]: every such non-empty
    batch is forwarded, with a loss fraction in [[0, 255]] and the sum of the
    sequence deltas as packet count. *)
Theorem monotone_batch_is_always_forwarded
    (m : gmap Z Z) (bs : list RTCPReportBlock) :
  bs <> [] ->
  Forall (fun b => is_u8 (fractionLost b)) bs ->
  Forall (fun w => 0 <= w) (weights m bs) ->
  sum (weights m bs) < 2 ^ 31 ->
  weighted_loss (weights m bs) bs + sum (weights m bs) / 2 < 2 ^ 31 ->
  exists fraction_loss,
    snd (aggregate m bs) = Some (fraction_loss, sum (weights m bs))
    /\ 0 <= fraction_loss <= 255.
Proof.
  intros Hne Hfl Hws Htot Hagg.
  rewrite (aggregate_value m bs Hne Hfl Hws Htot Hagg).
  eexists. split; [reflexivity |].
  destruct (Z.eqb_spec (sum (weights m bs)) 0) as [_ | Hd]; [lia |].
  pose proof (sum_nonneg _ Hws) as Hsum.
  pose proof (weighted_loss_nonneg _ _ Hws Hfl) as Hwl.
  pose proof (weighted_loss_le _ _ Hws Hfl) as Hle.
  pose proof (round_half_up_nearest (weighted_loss (weights m bs) bs)
                (sum (weights m bs)) ltac:(lia)) as Hnear.
  nia.
Qed.

Lemma monotone_batch_witness :
  exists fraction_loss,
    snd (aggregate (<[1 := 1000]> ∅) [blk 1 200 1400; blk 2 3 77])
    = Some (fraction_loss, 400)
    /\ 0 <= fraction_loss <= 255.
Proof.
  destruct (monotone_batch_is_always_forwarded
              (<[1 := 1000]> ∅) [blk 1 200 1400; blk 2 3 77])
    as (fraction_loss & Hagg & Hrange).
  - discriminate.
  - repeat constructor; simpl; lia.
  - repeat constructor; vm_compute; discriminate.
  - vm_compute. reflexivity.
  - vm_compute. reflexivity.
  - exists fraction_loss. split; [| exact Hrange].
    rewrite Hagg. do 2 f_equal.
Defined.

Lemma weighted_loss_between (lo hi : Z) (ws : list Z) (bs : list RTCPReportBlock) :
  length ws = length bs ->
  Forall (fun w => 0 <= w) ws ->
  Forall (fun b => lo <= fractionLost b <= hi) bs ->
  lo * sum ws <= weighted_loss ws bs <= hi * sum ws.
Proof.
  intros Hlen Hws. revert bs Hlen.
  induction Hws as [| w ws Hw _ IH]; intros bs Hlen Hbs; simpl.
  - destruct bs; simpl; lia.
  - destruct Hbs as [| b bs Hb Hbs]; [discriminate Hlen |].
    simpl in Hlen. specialize (IH bs ltac:(lia) Hbs). nia.
Qed.

Lemma weights_length (bs : list RTCPReportBlock) :
  forall m : gmap Z Z, length (weights m bs) = length bs.
Proof. induction bs as [| b bs IH]; intros m; simpl; [| rewrite IH]; reflexivity. Qed.

(** X4: the loss fraction forwarded for a batch lies between the smallest and
    the largest loss fraction reported in it (no regressed watermark, positive
    total weight, sums within [int]); in particular a batch of one flow
    forwards that flow's loss fraction unchanged. *)
Theorem forwarded_loss_is_between_reported_losses
    (m : gmap Z Z) (bs : list RTCPReportBlock) (lo hi : Z) :
  0 <= lo -> hi <= 255 ->
  Forall (fun b => lo <= fractionLost b <= hi) bs ->
  Forall (fun w => 0 <= w) (weights m bs) ->
  0 < sum (weights m bs) ->
  sum (weights m bs) < 2 ^ 31 ->
  weighted_loss (weights m bs) bs + sum (weights m bs) / 2 < 2 ^ 31 ->
  exists fraction_loss,
    snd (aggregate m bs) = Some (fraction_loss, sum (weights m bs))
    /\ lo <= fraction_loss <= hi.
Proof.
  intros Hlo Hhi Hbs Hws Hpos Htot Hagg.
  assert (Hne : bs <> []) by (intros ->; simpl in Hpos; lia).
  assert (Hfl : Forall (fun b => is_u8 (fractionLost b)) bs).
  { eapply Forall_impl; [exact Hbs |]. unfold is_u8. simpl. intros b Hb. lia. }
  rewrite (aggregate_value m bs Hne Hfl Hws Htot Hagg).
  eexists. split; [reflexivity |].
  destruct (Z.eqb_spec (sum (weights m bs)) 0) as [Hd | _]; [lia |].
  pose proof (weighted_loss_between lo hi _ bs (weights_length bs m) Hws Hbs)
    as Hbetween.
  pose proof (round_half_up_nearest (weighted_loss (weights m bs) bs)
                (sum (weights m bs)) Hpos) as Hnear.
  nia.
Qed.

Lemma single_flow_loss_witness :
  snd (aggregate (<[5 := 70000]> ∅) [blk 5 37 70123]) = Some (37, 123).
Proof.
  destruct (forwarded_loss_is_between_reported_losses
              (<[5 := 70000]> ∅) [blk 5 37 70123] 37 37)
    as (fraction_loss & Hagg & Hrange).
  - lia.
  - lia.
  - repeat constructor; simpl; lia.
  - repeat constructor; vm_compute; discriminate.
  - vm_compute. reflexivity.
  - vm_compute. reflexivity.
  - vm_compute. reflexivity.
  - rewrite Hagg. assert (fraction_loss = 37) as -> by lia. reflexivity.
Defined.

Lemma unknown_flows_weigh_nothing (bs : list RTCPReportBlock) :
  forall m : gmap Z Z,
    NoDup (sourceSSRC <$> bs) ->
    Forall (fun b => m !! sourceSSRC b = None) bs ->
    Forall (fun w => w = 0) (computed_weights m bs).
Proof.
  induction bs as [| b bs IH]; intros m Hnd Hnew; simpl; [constructor |].
  inversion Hnd as [| ? ? Hnotin Hnd']; subst.
  inversion Hnew as [| ? ? Hb Hbs]; subst.
  constructor.
  - unfold number_of_packets. rewrite Hb. reflexivity.
  - apply IH; [exact Hnd' |].
    rewrite Forall_forall in Hbs |- *. intros b' Hin.
    rewrite lookup_insert_ne; [apply Hbs; exact Hin |].
    intros Heq. apply Hnotin. rewrite Heq.
    apply list_elem_of_fmap. exists b'. split; [reflexivity | exact Hin].
Qed.

Lemma last_reported_NoDup (bs : list RTCPReportBlock) (b : RTCPReportBlock) :
  NoDup (sourceSSRC <$> bs) ->
  b ∈ bs ->
  Records.last_reported (sourceSSRC b) bs = Some (extendedHighSeqNum b).
Proof.
  induction bs as [| b0 bs IH]; intros Hnd Hin; [inversion Hin |].
  inversion Hnd as [| ? ? Hnotin Hnd']; subst. simpl.
  apply elem_of_cons in Hin as [-> | Hin].
  - destruct (Records.last_reported (sourceSSRC b0) bs) as [e |] eqn:Hlast.
    + exfalso. apply Hnotin. apply last_reported_is_Some. rewrite Hlast. eauto.
    + rewrite decide_True by reflexivity. reflexivity.
  - rewrite (IH Hnd' Hin). reflexivity.
Qed.

(** X5: a batch that names only flows without a record, each once, carries
    no information: it is forwarded as [(fraction_loss, packets) = (0, 0)]
    whatever loss the blocks report, and a record is created for each flow.
    This is what every first batch of a new observer looks like. *)
Theorem first_reports_are_forwarded_as_zero
    (m : gmap Z Z) (bs : list RTCPReportBlock) :
  bs <> [] ->
  NoDup (sourceSSRC <$> bs) ->
  Forall (fun b => m !! sourceSSRC b = None) bs ->
  snd (aggregate m bs) = Some (0, 0)
  /\ Forall (fun b => fst (aggregate m bs) !! sourceSSRC b
                      = Some (extendedHighSeqNum b)) bs.
Proof.
  intros Hne Hnd Hnew. split.
  - rewrite (aggregate_zero_weight m bs Hne
               (unknown_flows_weigh_nothing bs m Hnd Hnew)).
    reflexivity.
  - apply Forall_forall. intros b Hin.
    rewrite aggregate_records, records_after_lookup.
    rewrite (last_reported_NoDup bs b Hnd Hin). reflexivity.
Qed.

Lemma first_reports_witness :
  snd (aggregate ∅ [blk 7 30 4000; blk 8 255 12]) = Some (0, 0)
  /\ fst (aggregate ∅ [blk 7 30 4000; blk 8 255 12]) !! 8 = Some 12.
Proof.
  destruct (first_reports_are_forwarded_as_zero ∅ [blk 7 30 4000; blk 8 255 12])
    as [Hfwd Hrec].
  - discriminate.
  - simpl. apply NoDup_cons. split; [| apply NoDup_singleton].
    intros Hin. apply list_elem_of_singleton in Hin. discriminate Hin.
  - repeat constructor.
  - split; [exact Hfwd |].
    inversion Hrec as [| ? ? _ Hrest]; subst.
    inversion Hrest as [| ? ? H8 _]; subst. exact H8.
Defined.
End AggregatorValues.

(** * Further properties of the controller *)

Section NotificationDiscipline.
Context {E R : Type} `{!BandwidthEstimation E} `{!RembSuppressor R}.
Import BitrateControllerImpl Events NotificationLog.

Local Abbreviation ctl := (t (E := E) (R := R)).

(** The two ways out of [MaybeTriggerOnNetworkChanged], without any
    assumption on the values the engine reports. *)
Lemma MaybeTrigger_cases (c : ctl) :
  MaybeTriggerOnNetworkChanged c = (tt, c, [])
  \/ exists bitrate fraction_loss rtt,
       MaybeTriggerOnNetworkChanged c
       = (tt, with_last_notified bitrate fraction_loss rtt c,
          [{| call_bitrate := bitrate; call_fraction_loss := fraction_loss;
              call_rtt := rtt |}]).
Proof.
  unfold MaybeTriggerOnNetworkChanged, bind, get.
  destruct (CurrentEstimate (bandwidth_estimation_ c)) as [[b fl] rtt].
  simpl. destruct (negb _ || _ || _ || _); simpl; eauto.
Qed.

Lemma trigger_silent_or_one_call (c0 c1 : ctl) (g : ctl -> ctl) :
  last_bitrate_bps_ c1 = last_bitrate_bps_ c0 ->
  last_fraction_loss_ c1 = last_fraction_loss_ c0 ->
  last_rtt_ms_ c1 = last_rtt_ms_ c0 ->
  (forall x, last_bitrate_bps_ (g x) = last_bitrate_bps_ x
             /\ last_fraction_loss_ (g x) = last_fraction_loss_ x
             /\ last_rtt_ms_ (g x) = last_rtt_ms_ x) ->
  silent_or_one_call c0
    (tt, g (state_of (MaybeTriggerOnNetworkChanged c1)),
     calls (MaybeTriggerOnNetworkChanged c1)).
Proof.
  intros Hb Hf Hr Hg. unfold silent_or_one_call.
  destruct (Hg (state_of (MaybeTriggerOnNetworkChanged c1))) as (Hgb & Hgf & Hgr).
  destruct (MaybeTrigger_cases c1) as [Hq | (b & fl & rtt & Hq)];
    rewrite Hq in *; unfold state_of, calls in *; simpl in *.
  - left. repeat split; congruence.
  - right. eexists. split; [reflexivity |]. simpl. repeat split; congruence.
Qed.

Lemma step_silent_or_one_call (c : ctl) (ev : Event) :
  silent_or_one_call c (step ev c).
Proof.
  destruct ev as [clock bitrate | m bs rtt now | now1 now2 now3 | res
                 | b | lo hi | clock b | clock mode]; simpl;
    try (left; repeat split; reflexivity).
  - (* receiver estimate *)
    unfold RtcpBandwidthObserverImpl.OnReceivedEstimatedBitrate,
      OnReceivedEstimatedBitrate, bind, get.
    destruct (SuppresNewRemb clock bitrate (remb_suppressor_ c)) as [s r'].
    destruct s; simpl; [left; repeat split; reflexivity |].
    set (c1 := with_engine (UpdateReceiverEstimate bitrate) (with_suppressor r' c)).
    pose proof (trigger_silent_or_one_call c c1 (fun x => x) eq_refl eq_refl
                  eq_refl (fun x => conj eq_refl (conj eq_refl eq_refl))) as H.
    destruct (MaybeTriggerOnNetworkChanged c1) as [[[] c2] out]. exact H.
  - (* receiver report *)
    unfold RtcpBandwidthObserverImpl.OnReceivedRtcpReceiverReport.
    destruct (aggregate m bs) as [m' [[fl n] |]]; simpl;
      [| left; repeat split; reflexivity].
    unfold OnReceivedRtcpReceiverReport, bind, modify, ret.
    set (c1 := with_engine (UpdateReceiverBlock fl rtt n now) c).
    pose proof (trigger_silent_or_one_call c c1 (fun x => x) eq_refl eq_refl
                  eq_refl (fun x => conj eq_refl (conj eq_refl eq_refl))) as H.
    destruct (MaybeTriggerOnNetworkChanged c1) as [[[] c2] out].
    unfold silent_or_one_call, state_of, calls in *; simpl in *.
    rewrite !app_nil_r. exact H.
  - (* tick *)
    unfold Process, bind. unfold TimeUntilNextProcess, bind, get, ret. simpl.
    destruct (_ >? 0); simpl; [left; repeat split; reflexivity |].
    unfold modify.
    set (c1 := with_engine (UpdateEstimate now2) c).
    pose proof (trigger_silent_or_one_call c c1 (with_last_update now3) eq_refl
                  eq_refl eq_refl
                  (fun x => conj eq_refl (conj eq_refl eq_refl))) as H.
    destruct (MaybeTriggerOnNetworkChanged c1) as [[[] c2] out].
    unfold silent_or_one_call, state_of, calls in *; simpl in *.
    rewrite !app_nil_r. exact H.
  - (* reserved bitrate *)
    unfold SetReservedBitrate, bind, modify.
    set (c1 := with_reserved res c).
    pose proof (trigger_silent_or_one_call c c1 (fun x => x) eq_refl eq_refl
                  eq_refl (fun x => conj eq_refl (conj eq_refl eq_refl))) as H.
    destruct (MaybeTriggerOnNetworkChanged c1) as [[[] c2] out]. exact H.
Qed.

(** X6: no entry point invokes the observer more than once, whatever the
    engine and the suppressor do. *)
Theorem at_most_one_call_per_event (c : ctl) (ev : Event) :
  (length (calls (step ev c)) <= 1)%nat.
Proof.
  destruct (step_silent_or_one_call c ev) as [(Hc & _) | (k & Hc & _)];
    rewrite Hc; simpl; lia.
Qed.

Lemma run_events_mirrors (evs : list Event) :
  forall (c : ctl) (out : list OnNetworkChanged),
    mirrors c out ->
    mirrors (fst (fold_left
                    (fun acc ev =>
                       let r := step ev (fst acc) in
                       (state_of r, snd acc ++ calls r))
                    evs (c, out)))
            (snd (fold_left
                    (fun acc ev =>
                       let r := step ev (fst acc) in
                       (state_of r, snd acc ++ calls r))
                    evs (c, out))).
Proof.
  induction evs as [| ev evs IH]; intros c out Hm; simpl; [exact Hm |].
  apply IH. unfold mirrors in *.
  destruct (step_silent_or_one_call c ev)
    as [(Hc & Hb & Hf & Hr) | (k & Hc & Hb & Hf & Hr)];
    rewrite Hc, Hb, Hf, Hr.
  - rewrite app_nil_r. exact Hm.
  - rewrite last_snoc. reflexivity.
Qed.

(** X7: along every sequence of events from construction, the members
    [last_bitrate_bps_], [last_fraction_loss_] and [last_rtt_ms_] hold the
    arguments of the most recent [OnNetworkChanged] call, and are zero as long
    as the observer has not been called. *)
Theorem last_members_mirror_last_call (now : Z) (evs : list Event) :
  mirrors (fst (run_events (create now) evs))
          (snd (run_events (create (E := E) (R := R) now) evs)).
Proof. unfold run_events. apply run_events_mirrors. reflexivity. Qed.
End NotificationDiscipline.

Section ReservedBitrate.
Context {E R : Type} `{!BandwidthEstimation E} `{!RembSuppressor R}.
Import BitrateControllerImpl.

Local Abbreviation ctl := (t (E := E) (R := R)).

(** X8: a reserved bitrate different from the one last notified always
    produces exactly one observer call (line 186), whether or not the three
    values handed to the observer changed, and is recorded as notified. *)
Theorem reserved_change_always_notifies (c : ctl) (reserved : Z) :
  reserved <> last_reserved_bitrate_bps_ c ->
  exists k,
    calls (SetReservedBitrate reserved c) = [k]
    /\ reserved_bitrate_bps_ (state_of (SetReservedBitrate reserved c)) = reserved
    /\ last_reserved_bitrate_bps_ (state_of (SetReservedBitrate reserved c))
       = reserved.
Proof.
  intros Hne.
  unfold SetReservedBitrate, MaybeTriggerOnNetworkChanged, bind, modify, get.
  simpl.
  destruct (CurrentEstimate (bandwidth_estimation_ c)) as [[b fl] rtt].
  destruct (Z.eqb_spec (last_reserved_bitrate_bps_ c) reserved) as [Heq | _];
    [congruence |].
  rewrite !orb_true_r. simpl. eexists. repeat split.
Qed.

Lemma MaybeTrigger_twice (c : ctl) :
  MaybeTriggerOnNetworkChanged (state_of (MaybeTriggerOnNetworkChanged c))
  = (tt, state_of (MaybeTriggerOnNetworkChanged c), []).
Proof.
  unfold MaybeTriggerOnNetworkChanged, bind, get, state_of.
  destruct (CurrentEstimate (bandwidth_estimation_ c)) as [[b fl] rtt] eqn:He.
  simpl.
  destruct (negb _ || _ || _ || _) eqn:Hcmp; simpl; rewrite He; simpl.
  - rewrite !Z.eqb_refl. reflexivity.
  - rewrite Hcmp. reflexivity.
Qed.

(** X9: setting the same reserved bitrate twice in a row notifies at most
    once: the second call finds the tuple it computes already stored, calls
    nobody and leaves the state as the first call left it. *)
Theorem repeated_reserved_bitrate_is_silent (c : ctl) (reserved : Z) :
  SetReservedBitrate reserved (state_of (SetReservedBitrate reserved c))
  = (tt, state_of (SetReservedBitrate reserved c), []).
Proof.
  unfold SetReservedBitrate, bind, modify.
  set (c1 := with_reserved reserved c).
  pose proof (MaybeTrigger_twice c1) as Htwice.
  pose proof (MaybeTrigger_frame c1) as (_ & Hres & _).
  destruct (MaybeTriggerOnNetworkChanged c1) as [[[] c2] out].
  unfold state_of in *; simpl in *.
  assert (Hsame : with_reserved reserved c2 = c2).
  { unfold with_reserved. rewrite <- Hres at 1. destruct c2; reflexivity. }
  rewrite Hsame, Htwice. reflexivity.
Qed.

Lemma AvailableBandwidth_value (c : ctl) :
  result (AvailableBandwidth c)
  = (let raw := fst (fst (CurrentEstimate (bandwidth_estimation_ c))) in
     if raw =? 0 then None
     else Some (Z.max (u32 (raw - Z.min raw (reserved_bitrate_bps_ c)))
                      (GetMinBitrate (bandwidth_estimation_ c)))).
Proof.
  unfold AvailableBandwidth, bind, get, result.
  destruct (CurrentEstimate (bandwidth_estimation_ c)) as [[b fl] rtt].
  simpl. destruct (b =? 0); reflexivity.
Qed.

(** X10: reserving more never exposes more.  With an established estimate,
    [AvailableBandwidth] after [SetReservedBitrate(r2)] is at most what it is
    after [SetReservedBitrate(r1)] whenever [r1 <= r2], and neither exceeds
    the larger of the raw estimate and the engine's minimum. *)
Theorem available_bandwidth_antitone_in_reserved (c : ctl) (r1 r2 : Z) :
  is_u32 (fst (fst (CurrentEstimate (bandwidth_estimation_ c)))) ->
  fst (fst (CurrentEstimate (bandwidth_estimation_ c))) <> 0 ->
  is_u32 r1 -> is_u32 r2 -> r1 <= r2 ->
  exists b1 b2,
    result (AvailableBandwidth (state_of (SetReservedBitrate r1 c))) = Some b1
    /\ result (AvailableBandwidth (state_of (SetReservedBitrate r2 c))) = Some b2
    /\ b2 <= b1
    /\ b1 <= Z.max (fst (fst (CurrentEstimate (bandwidth_estimation_ c))))
                   (GetMinBitrate (bandwidth_estimation_ c)).
Proof.
  intros Hraw Hnz Hr1 Hr2 Hle.
  assert (Hstate : forall r,
    bandwidth_estimation_ (state_of (SetReservedBitrate r c))
    = bandwidth_estimation_ c
    /\ reserved_bitrate_bps_ (state_of (SetReservedBitrate r c)) = r).
  { intros r. unfold SetReservedBitrate, bind, modify.
    pose proof (MaybeTrigger_frame (with_reserved r c)) as (He & Hres & _).
    destruct (MaybeTriggerOnNetworkChanged (with_reserved r c)) as [[[] c2] out].
    unfold state_of in *; simpl in *. split; assumption. }
  destruct (Hstate r1) as [He1 Hres1]. destruct (Hstate r2) as [He2 Hres2].
  rewrite !AvailableBandwidth_value. cbv zeta.
  rewrite He1, He2, Hres1, Hres2.
  set (raw := fst (fst (CurrentEstimate (bandwidth_estimation_ c)))) in *.
  destruct (Z.eqb_spec raw 0) as [Hz | _]; [contradiction |].
  unfold is_u32 in *.
  rewrite !u32_small by (unfold is_u32; lia).
  eexists. eexists. split; [reflexivity |]. split; [reflexivity |]. lia.
Qed.
End ReservedBitrate.

Section PeriodicTick.
Context {E R : Type} `{!BandwidthEstimation E} `{!RembSuppressor R}.
Import BitrateControllerImpl.

Local Abbreviation ctl := (t (E := E) (R := R)).

Lemma s64_small (x : Z) : - 2 ^ 63 <= x < 2 ^ 63 -> s64 x = x.
Proof. unfold s64. intros Hx. rewrite Z.mod_small; lia. Qed.

Lemma TimeUntilNextProcess_value (c : ctl) (now : Z) :
  is_time now -> is_time (last_bitrate_update_ms_ c) ->
  TimeUntilNextProcess now c
  = (Z.max (25 - (now - last_bitrate_update_ms_ c)) 0, c, []).
Proof.
  unfold is_time. intros Hnow Hlast.
  unfold TimeUntilNextProcess, bind, get, ret,
    kBitrateControllerUpdateIntervalMs. simpl.
  rewrite (s64_small (now - last_bitrate_update_ms_ c)) by lia.
  rewrite s64_small by lia. reflexivity.
Qed.

(** X11: [TimeUntilNextProcess] is a read: it changes nothing and never
    answers a negative time.  For clock readings that do not overflow the
    64-bit subtraction the answer is [max(25 - (now - last update), 0)]: zero
    exactly when 25 ms or more have passed, and at most 25 as long as the
    clock has not gone backwards. *)
Theorem time_until_next_process_answer (c : ctl) (now : Z) :
  is_time now -> is_time (last_bitrate_update_ms_ c) ->
  let r := TimeUntilNextProcess now c in
  state_of r = c
  /\ calls r = []
  /\ result r = Z.max (25 - (now - last_bitrate_update_ms_ c)) 0
  /\ 0 <= result r
  /\ (result r = 0 <-> 25 <= now - last_bitrate_update_ms_ c)
  /\ (last_bitrate_update_ms_ c <= now -> result r <= 25).
Proof.
  intros Hnow Hlast r. subst r.
  rewrite (TimeUntilNextProcess_value c now Hnow Hlast).
  unfold state_of, calls, result. cbn [fst snd].
  split; [reflexivity |]. split; [reflexivity |]. split; [reflexivity |].
  lia.
Qed.

(** X12: ticks are rate limited.  Once [Process] has run the update and
    stamped the reading [now3], every [Process] whose first clock reading is
    less than 25 ms after [now3] returns at once: same state, no observer
    call. *)
Theorem process_is_rate_limited (c : ctl) (now1 now2 now3 t1 t2 t3 : Z) :
  result (TimeUntilNextProcess now1 c) <= 0 ->
  is_time now3 -> is_time t1 ->
  now3 <= t1 < now3 + 25 ->
  Process t1 t2 t3 (state_of (Process now1 now2 now3 c))
  = (0, state_of (Process now1 now2 now3 c), []).
Proof.
  intros Hdue Hnow3 Ht1 Hsoon.
  apply process_early_noop.
  assert (Hstamp : last_bitrate_update_ms_ (state_of (Process now1 now2 now3 c))
                   = now3).
  { unfold Process, bind.
    destruct (TimeUntilNextProcess now1 c) as [[until c0] out0] eqn:Ht.
    assert (Hc : c0 = c).
    { unfold TimeUntilNextProcess, bind, get, ret in Ht. simpl in Ht.
      inversion Ht; reflexivity. }
    subst c0. unfold result in Hdue; simpl in Hdue.
    destruct (Z.gtb_spec until 0) as [Hgt | _]; [lia |].
    unfold modify.
    destruct (MaybeTriggerOnNetworkChanged _) as [[[] c2] out].
    reflexivity. }
  rewrite TimeUntilNextProcess_value; [| exact Ht1 | rewrite Hstamp; exact Hnow3].
  rewrite Hstamp. unfold result. cbn [fst snd]. lia.
Qed.
End PeriodicTick.

(** * Properties of AudioState *)

Section AudioStateFacts.
Import AudioState.

Lemma UpdateNullAudioPollerState_eq (st : t) :
  UpdateNullAudioPollerState st
  = with_poller (negb (receiving_empty st) && negb (playout_enabled_ st)) st.
Proof.
  unfold UpdateNullAudioPollerState.
  destruct (negb (receiving_empty st) && negb (playout_enabled_ st));
    [| reflexivity].
  destruct (null_audio_poller_running st) eqn:Hrun; simpl; [| reflexivity].
  destruct st; simpl in *. subst. reflexivity.
Qed.

Lemma UpdateNullAudioPollerState_intended (st : t) :
  poller_as_intended (UpdateNullAudioPollerState st).
Proof. rewrite UpdateNullAudioPollerState_eq. reflexivity. Qed.

Lemma perform_keeps_poller_as_intended (st : t) (call : Call) :
  poller_as_intended st -> poller_as_intended (fst (perform st call)).
Proof.
  intros Hst.
  destruct call as [s playing init | s | s rate ch recording init | s
                   | enabled | enabled | enable]; simpl.
  - apply UpdateNullAudioPollerState_intended.
  - apply UpdateNullAudioPollerState_intended.
  - exact Hst.
  - exact Hst.
  - unfold SetPlayout.
    destruct (negb (eqb (playout_enabled_ st) enabled)); [| exact Hst].
    destruct enabled; simpl; apply UpdateNullAudioPollerState_intended.
  - unfold SetRecording.
    destruct (negb (eqb (recording_enabled_ st) enabled)); [| exact Hst].
    destruct enabled; exact Hst.
  - exact Hst.
Qed.

(** X13: in every state reachable from construction the null audio poller
    runs exactly when there are receiving streams and playout is disabled,
    whatever the order of the calls and whatever the device module
    answers. *)
Theorem poller_runs_iff_receiving_without_playout
    (playout_enabled recording_enabled : bool) (calls : list Call) :
  poller_as_intended (run (create playout_enabled recording_enabled) calls).
Proof.
  unfold run.
  assert (Hgen : forall st, poller_as_intended st ->
            poller_as_intended
              (fold_left (fun st call => fst (perform st call)) calls st)).
  { induction calls as [| call calls IH]; intros st Hst; simpl; [exact Hst |].
    apply IH. apply perform_keeps_poller_as_intended. exact Hst. }
  apply Hgen. reflexivity.
Qed.

Lemma transport_update_only (st : t) :
  exists senders rate ch,
    UpdateAudioTransportWithSendingStreams st
    = [TransportUpdateAudioSenders senders rate ch].
Proof.
  unfold UpdateAudioTransportWithSendingStreams.
  destruct (fold_left _ _ _) as [[senders rate] ch]. eauto.
Qed.

Lemma not_empty_of_negb_bool_decide {A : Type} (x y : A) `{!Decision (x = y)} :
  negb (bool_decide (x = y)) = true -> x <> y.
Proof. intros H Heq. rewrite bool_decide_eq_true_2 in H by exact Heq. discriminate H. Qed.

Ltac member_cases H :=
  repeat first
    [ apply elem_of_nil in H; contradiction
    | apply elem_of_cons in H; destruct H as [H | H]; [try discriminate H |] ].

Lemma singleton_union_nonempty (s : Z) (X : gset Z) : {[s]} ∪ X <> ∅.
Proof.
  intros Heq. apply (not_elem_of_empty (C := gset Z) s).
  rewrite <- Heq. apply elem_of_union_l, elem_of_singleton. reflexivity.
Qed.

(** X14: the device module is told to start only when that is wanted and
    useful.  Whatever the call and the state, [StartPlayout] is issued only
    if afterwards playout is enabled and there is a receiving stream, and
    [StartRecording] only if afterwards recording is enabled and there is a
    sending stream. *)
Theorem start_only_when_enabled_and_streams_exist (st : t) (call : Call) :
  (AdmStartPlayout ∈ snd (perform st call) ->
   playout_enabled_ (fst (perform st call)) = true
   /\ receiving_streams_ (fst (perform st call)) <> ∅)
  /\ (AdmStartRecording ∈ snd (perform st call) ->
      recording_enabled_ (fst (perform st call)) = true
      /\ sending_streams_ (fst (perform st call)) <> ∅).
Proof.
  destruct call as [s playing init | s | s rate ch recording init | s
                   | enabled | enabled | enable]; simpl.
  - (* AddReceivingStream *)
    rewrite UpdateNullAudioPollerState_eq. simpl. split; intros Hin.
    + split; [| apply singleton_union_nonempty].
      destruct playing, (init =? 0), (playout_enabled_ st); simpl in Hin;
        try reflexivity; member_cases Hin.
    + destruct playing, (init =? 0), (playout_enabled_ st); simpl in Hin;
        member_cases Hin.
  - (* RemoveReceivingStream *)
    split; intros Hin; destruct (receiving_empty _); member_cases Hin.
  - (* AddSendingStream *)
    destruct (transport_update_only
      (with_sending
         (<[s := {| sample_rate_hz := rate; num_channels := ch |}]>
            (sending_streams_ st)) st)) as (senders & r & c & ->).
    split; intros Hin.
    + destruct recording, (init =? 0), (recording_enabled_ st); simpl in Hin;
        member_cases Hin.
    + split; [| apply insert_non_empty].
      destruct recording, (init =? 0), (recording_enabled_ st); simpl in Hin;
        try reflexivity; member_cases Hin.
  - (* RemoveSendingStream *)
    destruct (transport_update_only
      (with_sending (delete s (sending_streams_ st)) st))
      as (senders & r & c & ->).
    split; intros Hin; destruct (sending_empty _); simpl in Hin;
      member_cases Hin.
  - (* SetPlayout *)
    unfold SetPlayout.
    destruct (negb (eqb (playout_enabled_ st) enabled));
      [| split; intros Hin; member_cases Hin].
    destruct enabled; simpl.
    + rewrite UpdateNullAudioPollerState_eq. simpl.
      unfold receiving_empty; simpl.
      destruct (negb (bool_decide (receiving_streams_ st = ∅))) eqn:Hne;
        (split; intros Hin; [| member_cases Hin]).
      * split; [reflexivity |].
        apply not_empty_of_negb_bool_decide in Hne. exact Hne.
      * member_cases Hin.
    + split; intros Hin; member_cases Hin.
  - (* SetRecording *)
    unfold SetRecording.
    destruct (negb (eqb (recording_enabled_ st) enabled));
      [| split; intros Hin; member_cases Hin].
    destruct enabled; simpl.
    + unfold sending_empty; simpl.
      destruct (negb (bool_decide (sending_streams_ st = ∅))) eqn:Hne;
        (split; intros Hin; [member_cases Hin |]).
      * split; [reflexivity |].
        apply not_empty_of_negb_bool_decide in Hne. exact Hne.
      * member_cases Hin.
    + split; intros Hin; member_cases Hin.
  - (* SetStereoChannelSwapping *)
    split; intros Hin; member_cases Hin.
Qed.
Lemma add_then_remove_receiving (s : Z) (X : gset Z) :
  s ∉ X -> ({[s]} ∪ X) ∖ {[s]} = X.
Proof.
  intros Hs. apply set_eq. intros x.
  rewrite elem_of_difference, elem_of_union, !elem_of_singleton.
  split.
  - intros [[Heq | Hx] Hne]; [contradiction | exact Hx].
  - intros Hx. split; [right; exact Hx |]. intros ->. contradiction.
Qed.

(** X15: adding a receiving stream that is not yet registered (the
    [RTC_DCHECK_EQ] of line 60) and removing it again restores the registry:
    from a state in which the poller runs as intended, the state after the
    two calls is the state before them, whatever the device module
    answered. *)
Theorem add_remove_receiving_stream_round_trip
    (st : t) (stream : Z) (playing : bool) (init_playout : Z) :
  stream ∉ receiving_streams_ st ->
  poller_as_intended st ->
  fst (RemoveReceivingStream stream
         (fst (AddReceivingStream stream playing init_playout st))) = st.
Proof.
  intros Hnew Hpoller. unfold RemoveReceivingStream, AddReceivingStream.
  cbn [fst]. rewrite !UpdateNullAudioPollerState_eq.
  unfold poller_as_intended in Hpoller.
  unfold receiving_empty in *. simpl.
  rewrite (add_then_remove_receiving stream _ Hnew).
  unfold with_poller, with_receiving; simpl. rewrite <- Hpoller.
  destruct st; reflexivity.
Qed.

(** What the loop of lines 167-171 computes from any starting values. *)
Lemma senders_fold (l : list (Z * StreamProperties)) :
  forall (senders : list Z) (rate ch : Z),
    let r := fold_left senders_step l (senders, rate, ch) in
    fst (fst r) = senders ++ l.*1
    /\ rate <= snd (fst r)
    /\ ch <= snd r
    /\ (forall kv, kv ∈ l ->
          sample_rate_hz (snd kv) <= snd (fst r)
          /\ num_channels (snd kv) <= snd r)
    /\ (snd (fst r) = rate
        \/ exists kv, kv ∈ l /\ snd (fst r) = sample_rate_hz (snd kv))
    /\ (snd r = ch \/ exists kv, kv ∈ l /\ snd r = num_channels (snd kv)).
Proof.
  induction l as [| kv l IH]; intros senders rate ch; simpl.
  - rewrite app_nil_r. split; [reflexivity |]. split; [lia |]. split; [lia |].
    split; [intros kv' Hin; inversion Hin |]. split; left; reflexivity.
  - specialize (IH (senders ++ [fst kv])
                   (Z.max rate (sample_rate_hz (snd kv)))
                   (Z.max ch (num_channels (snd kv)))).
    simpl in IH. destruct IH as (Hs & Hr & Hc & Hall & Hrate & Hch).
    split; [rewrite Hs, <- app_assoc; reflexivity |].
    split; [lia |]. split; [lia |]. split; [| split].
    + intros kv' Hin. apply elem_of_cons in Hin as [-> | Hin];
        [lia | apply Hall; exact Hin].
    + destruct Hrate as [Hrate | (kv' & Hin & Hrate)].
      * destruct (Z.max_spec rate (sample_rate_hz (snd kv))) as [[_ Hm] | [_ Hm]].
        -- right. exists kv. split; [apply list_elem_of_here | lia].
        -- left. lia.
      * right. exists kv'. split; [apply list_elem_of_further; exact Hin | exact Hrate].
    + destruct Hch as [Hch | (kv' & Hin & Hch)].
      * destruct (Z.max_spec ch (num_channels (snd kv))) as [[_ Hm] | [_ Hm]].
        -- right. exists kv. split; [apply list_elem_of_here | lia].
        -- left. lia.
      * right. exists kv'. split; [apply list_elem_of_further; exact Hin | exact Hch].
Qed.

Lemma in_key_order_elem (m : gmap Z StreamProperties) (kv : Z * StreamProperties) :
  kv ∈ in_key_order m <-> m !! fst kv = Some (snd kv).
Proof.
  unfold in_key_order.
  rewrite (merge_sort_Permutation key_le (H := key_le_dec) (map_to_list m)).
  destruct kv as [k v]. apply elem_of_map_to_list.
Qed.

Lemma in_key_order_keys (m : gmap Z StreamProperties) :
  NoDup (in_key_order m).*1
  /\ forall s, s ∈ (in_key_order m).*1 <-> is_Some (m !! s).
Proof.
  unfold in_key_order.
  pose proof (merge_sort_Permutation key_le (H := key_le_dec) (map_to_list m))
    as Hperm.
  split.
  - rewrite Hperm. apply NoDup_fst_map_to_list.
  - intros s. rewrite Hperm. rewrite list_elem_of_fmap. split.
    + intros ([k v] & -> & Hin). apply elem_of_map_to_list in Hin. eauto.
    + intros [v Hv]. exists (s, v). split; [reflexivity |].
      apply elem_of_map_to_list. exact Hv.
Qed.

(** X16: [UpdateAudioTransportWithSendingStreams] makes one call,
    [UpdateAudioSenders], naming every sending stream exactly once, with the
    largest sample rate and the largest channel count among the streams, but
    never less than 8000 Hz and one channel. *)
Theorem transport_gets_all_senders_and_maxima (st : t) :
  exists senders rate ch,
    UpdateAudioTransportWithSendingStreams st
    = [TransportUpdateAudioSenders senders rate ch]
    /\ NoDup senders
    /\ (forall s, s ∈ senders <-> is_Some (sending_streams_ st !! s))
    /\ 8000 <= rate
    /\ 1 <= ch
    /\ (forall s p, sending_streams_ st !! s = Some p ->
          sample_rate_hz p <= rate /\ num_channels p <= ch)
    /\ (rate = 8000
        \/ exists s p, sending_streams_ st !! s = Some p /\ rate = sample_rate_hz p)
    /\ (ch = 1
        \/ exists s p, sending_streams_ st !! s = Some p /\ ch = num_channels p).
Proof.
  unfold UpdateAudioTransportWithSendingStreams.
  pose proof (senders_fold (in_key_order (sending_streams_ st)) [] 8000 1) as H.
  cbv zeta in H.
  destruct (fold_left senders_step _ _) as [[senders rate] ch].
  simpl in H. destruct H as (Hs & Hr & Hc & Hall & Hrate & Hch).
  destruct (in_key_order_keys (sending_streams_ st)) as [Hnd Hkeys].
  exists senders, rate, ch. subst senders.
  split; [reflexivity |]. split; [exact Hnd |]. split; [exact Hkeys |].
  split; [exact Hr |]. split; [exact Hc |]. split; [| split].
  - intros s p Hsp. apply (Hall (s, p)). apply in_key_order_elem. exact Hsp.
  - destruct Hrate as [-> | ([s p] & Hin & ->)]; [left; reflexivity |].
    right. exists s, p. split; [| reflexivity].
    apply in_key_order_elem in Hin. exact Hin.
  - destruct Hch as [-> | ([s p] & Hin & ->)]; [left; reflexivity |].
    right. exists s, p. split; [| reflexivity].
    apply in_key_order_elem in Hin. exact Hin.
Qed.

(** X17: [AddSendingStream] first tells the transport about the senders, and
    that call names the stream just added, with a sample rate at least the
    stream's and at least 8000 Hz and a channel count at least the stream's
    and at least 1; a stream added again is overwritten, not duplicated. *)
Theorem added_sending_stream_reaches_transport
    (st : t) (stream sample_rate num_ch : Z) (recording : bool)
    (init_recording : Z) :
  exists senders rate ch rest,
    snd (AddSendingStream stream sample_rate num_ch recording init_recording st)
    = TransportUpdateAudioSenders senders rate ch :: rest
    /\ stream ∈ senders
    /\ NoDup senders
    /\ Z.max 8000 sample_rate <= rate
    /\ Z.max 1 num_ch <= ch
    /\ sending_streams_
         (fst (AddSendingStream stream sample_rate num_ch recording
                 init_recording st)) !! stream
       = Some {| sample_rate_hz := sample_rate; num_channels := num_ch |}.
Proof.
  unfold AddSendingStream, UpdateAudioTransportWithSendingStreams.
  cbn [fst snd].
  set (st1 := with_sending _ st).
  pose proof (senders_fold (in_key_order (sending_streams_ st1)) [] 8000 1) as H.
  cbv zeta in H.
  destruct (fold_left senders_step _ _) as [[senders rate] ch].
  simpl in H. destruct H as (Hs & Hr & Hc & Hall & _).
  destruct (in_key_order_keys (sending_streams_ st1)) as [Hnd Hkeys].
  assert (Hst : sending_streams_ st1 !! stream
                = Some {| sample_rate_hz := sample_rate; num_channels := num_ch |})
    by apply lookup_insert_eq.
  destruct (Hall (stream, {| sample_rate_hz := sample_rate;
                             num_channels := num_ch |})) as [Hrate Hch].
  { apply in_key_order_elem. exact Hst. }
  simpl in Hrate, Hch. subst senders.
  eexists _, rate, ch, _. split; [reflexivity |].
  split; [apply Hkeys; rewrite Hst; eauto |].
  split; [exact Hnd |]. split; [lia |]. split; [lia | exact Hst].
Qed.

(** X18: adding a sending stream that is not yet registered and removing it
    again restores the registry, and the removal hands the transport exactly
    the senders and maxima of the state before the two calls. *)
Theorem add_remove_sending_stream_round_trip
    (st : t) (stream sample_rate num_ch : Z) (recording : bool)
    (init_recording : Z) :
  sending_streams_ st !! stream = None ->
  let st1 := fst (AddSendingStream stream sample_rate num_ch recording
                    init_recording st) in
  fst (RemoveSendingStream stream st1) = st
  /\ exists rest,
       snd (RemoveSendingStream stream st1)
       = UpdateAudioTransportWithSendingStreams st ++ rest.
Proof.
  intros Hnew st1. subst st1.
  unfold RemoveSendingStream, AddSendingStream. cbn [fst snd].
  assert (Hst : with_sending
                  (delete stream
                     (sending_streams_
                        (with_sending
                           (<[stream := {| sample_rate_hz := sample_rate;
                                           num_channels := num_ch |}]>
                              (sending_streams_ st)) st)))
                  (with_sending
                     (<[stream := {| sample_rate_hz := sample_rate;
                                     num_channels := num_ch |}]>
                        (sending_streams_ st)) st) = st).
  { unfold with_sending; simpl. rewrite delete_insert_id by exact Hnew.
    destruct st; reflexivity. }
  rewrite Hst. split; [reflexivity | eauto].
Qed.

(** X19: [SetPlayout] and [SetRecording] are idempotent: a second call with
    the same value changes nothing and issues no command. *)
Theorem repeated_set_playout_or_recording_is_noop (st : t) (enabled : bool) :
  SetPlayout enabled (fst (SetPlayout enabled st))
  = (fst (SetPlayout enabled st), [])
  /\ SetRecording enabled (fst (SetRecording enabled st))
     = (fst (SetRecording enabled st), []).
Proof.
  assert (Hp : playout_enabled_ (fst (SetPlayout enabled st)) = enabled).
  { unfold SetPlayout.
    destruct (eqb_spec (playout_enabled_ st) enabled) as [Heq | Hne]; simpl;
      [exact Heq |].
    destruct enabled; simpl; rewrite UpdateNullAudioPollerState_eq; reflexivity. }
  assert (Hr : recording_enabled_ (fst (SetRecording enabled st)) = enabled).
  { unfold SetRecording.
    destruct (eqb_spec (recording_enabled_ st) enabled) as [Heq | Hne]; simpl;
      [exact Heq |].
    destruct enabled; reflexivity. }
  split.
  - unfold SetPlayout at 1. rewrite Hp, eqb_reflx. reflexivity.
  - unfold SetRecording at 1. rewrite Hr, eqb_reflx. reflexivity.
Qed.
End AudioStateFacts.

(** * The further properties on concrete inputs *)

Section FurtherOnScenario.
Import BitrateControllerImpl Events Scenario.

Local Existing Instance engine.
Local Existing Instance suppressor.

(** The controller of the scenario with 480000 bps reserved: the exposed
    bitrate sits on the engine's minimum. *)
Lemma reserved_change_always_notifies_witness :
  490000 <> last_reserved_bitrate_bps_
              (state_of (SetReservedBitrate 480000 configured))
  /\ exists k,
       calls (SetReservedBitrate 490000
                (state_of (SetReservedBitrate 480000 configured))) = [k]
       /\ reserved_bitrate_bps_
            (state_of (SetReservedBitrate 490000
                         (state_of (SetReservedBitrate 480000 configured))))
          = 490000
       /\ last_reserved_bitrate_bps_
            (state_of (SetReservedBitrate 490000
                         (state_of (SetReservedBitrate 480000 configured))))
          = 490000.
Proof.
  assert (Hne : 490000 <> last_reserved_bitrate_bps_
                            (state_of (SetReservedBitrate 480000 configured)))
    by (vm_compute; discriminate).
  split; [exact Hne |].
  exact (reserved_change_always_notifies
           (state_of (SetReservedBitrate 480000 configured)) 490000 Hne).
Defined.

(** Both calls hand the observer the same three values. *)
Example reserved_change_repeats_arguments :
  calls (SetReservedBitrate 480000 configured)
  = [{| call_bitrate := 50000; call_fraction_loss := 0; call_rtt := 0 |}]
  /\ calls (SetReservedBitrate 490000
              (state_of (SetReservedBitrate 480000 configured)))
     = [{| call_bitrate := 50000; call_fraction_loss := 0; call_rtt := 0 |}].
Proof. split; vm_compute; reflexivity. Qed.

Lemma available_bandwidth_antitone_witness :
  result (AvailableBandwidth (state_of (SetReservedBitrate 100000 configured)))
  = Some 400000
  /\ result (AvailableBandwidth (state_of (SetReservedBitrate 470000 configured)))
     = Some 50000.
Proof.
  destruct (available_bandwidth_antitone_in_reserved configured 100000 470000)
    as (b1 & b2 & H1 & H2 & _).
  - unfold is_u32. vm_compute. repeat split; discriminate.
  - vm_compute. discriminate.
  - unfold is_u32. lia.
  - unfold is_u32. lia.
  - lia.
  - split; vm_compute; reflexivity.
Defined.

Lemma time_until_next_process_witness :
  result (TimeUntilNextProcess 10 started) = 15
  /\ result (TimeUntilNextProcess 25 started) = 0
  /\ state_of (TimeUntilNextProcess 10 started) = started.
Proof.
  assert (Ht : forall x, 0 <= x <= 100 -> is_time x)
    by (unfold is_time; intros x Hx; lia).
  assert (Hlast : last_bitrate_update_ms_ started = 0) by reflexivity.
  destruct (time_until_next_process_answer started 10) as (Hst & _ & H10 & _).
  - apply Ht; lia.
  - rewrite Hlast. apply Ht; lia.
  - destruct (time_until_next_process_answer started 25) as (_ & _ & H25 & _).
    + apply Ht; lia.
    + rewrite Hlast. apply Ht; lia.
    + cbv zeta in *. rewrite H10, H25.
      split; [vm_compute; reflexivity |].
      split; [vm_compute; reflexivity | exact Hst].
Defined.

Lemma process_is_rate_limited_witness :
  result (TimeUntilNextProcess 30 started) <= 0
  /\ calls (Process 54 54 54 (state_of (Process 30 31 32 started))) = []
  /\ state_of (Process 54 54 54 (state_of (Process 30 31 32 started)))
     = state_of (Process 30 31 32 started).
Proof.
  assert (Hdue : result (TimeUntilNextProcess 30 started) <= 0)
    by (vm_compute; discriminate).
  split; [exact Hdue |].
  rewrite (process_is_rate_limited started 30 31 32 54 54 54 Hdue).
  - split; reflexivity.
  - unfold is_time. lia.
  - unfold is_time. lia.
  - lia.
Defined.
End FurtherOnScenario.

Section AudioStateScenario.
Import AudioState.

Lemma add_remove_receiving_witness :
  (7 ∉ receiving_streams_ muted_with_sender)
  /\ poller_as_intended muted_with_sender
  /\ null_audio_poller_running
       (fst (AddReceivingStream 7 false 0 muted_with_sender)) = true
  /\ fst (RemoveReceivingStream 7
            (fst (AddReceivingStream 7 false 0 muted_with_sender)))
     = muted_with_sender.
Proof.
  assert (Hnew : 7 ∉ receiving_streams_ muted_with_sender).
  { assert (receiving_streams_ muted_with_sender = ∅) as -> by reflexivity.
    apply not_elem_of_empty. }
  assert (Hpoller : poller_as_intended muted_with_sender)
    by (vm_compute; reflexivity).
  split; [exact Hnew |]. split; [exact Hpoller |].
  split; [vm_compute; reflexivity |].
  exact (add_remove_receiving_stream_round_trip muted_with_sender 7 false 0
           Hnew Hpoller).
Defined.

Lemma add_remove_sending_witness :
  sending_streams_ muted_with_sender !! 8192 = None
  /\ fst (RemoveSendingStream 8192
            (fst (AddSendingStream 8192 16000 1 true 0 muted_with_sender)))
     = muted_with_sender.
Proof.
  assert (Hnew : sending_streams_ muted_with_sender !! 8192 = None)
    by (vm_compute; reflexivity).
  split; [exact Hnew |].
  exact (proj1 (add_remove_sending_stream_round_trip muted_with_sender
                  8192 16000 1 true 0 Hnew)).
Defined.

(** Two senders: the transport is given both, in key order, with the larger
    rate and channel count; a failed [InitRecording] starts nothing. *)
Example two_senders_update :
  snd (AddSendingStream 1024 16000 1 false (-1) muted_with_sender)
  = [TransportUpdateAudioSenders [1024; 4096] 48000 2; AdmInitRecording].
Proof. vm_compute. reflexivity. Qed.
End AudioStateScenario.
